(** * Klayers: the build-and-deduplicate pipeline of [serverless/build.py]

    A shallow embedding of [freeze_requirements], the ledger and blob-store
    helpers and the [main] handler, and the properties of the dependency
    manifest, its fingerprint and the check-then-publish control flow. *)

From Stdlib Require Import NArith ZArith String Ascii Lia.
From Stdlib Require DecimalString.
From stdpp Require Import list sorting gmap.

Local Open Scope N_scope.

(** ** Python [str] values

    A Python [str] is a sequence of Unicode code points; a code point is a
    number ([N]).  [lit] reads an ASCII literal as such a sequence. *)

Abbreviation str := (list N).

Definition lit (s : string) : str :=
  map N_of_ascii (list_ascii_of_string s).

Definition LF : N := 10.
Definition CR : N := 13.
Definition HYPHEN : N := 45.

Definition str_eqb (s t : str) : bool := bool_decide (s = t).

(** [s[-n:]] and [s[:-n]] for a positive [n]; [s[:n]] is [take n s] and
    [s[n:]] is [drop n s]. *)
Definition py_last (n : nat) (s : str) : str := drop (length s - n)%nat s.
Definition py_but_last (n : nat) (s : str) : str := take (length s - n)%nat s.

(** [s.split(sep)] for a one-character separator: never the empty list. *)
Fixpoint py_split (sep : N) (s : str) : list str :=
  match s with
  | [] => [[]]
  | c :: s' =>
      if N.eqb c sep then [] :: py_split sep s'
      else match py_split sep s' with
           | w :: ws => (c :: w) :: ws
           | [] => [[c]]
           end
  end.

(** [sep.join(l)] for a one-character separator. *)
Fixpoint py_join (sep : N) (l : list str) : str :=
  match l with
  | [] => []
  | [s] => s
  | s :: l' => s ++ sep :: py_join sep l'
  end.

(** The characters [str.strip()] removes: those for which [str.isspace()]
    holds. *)
Definition is_space (c : N) : bool :=
  ((9 <=? c) && (c <=? 13)) || ((28 <=? c) && (c <=? 32))
  || (c =? 133) || (c =? 160) || (c =? 5760)
  || ((8192 <=? c) && (c <=? 8202))
  || (c =? 8232) || (c =? 8233) || (c =? 8239) || (c =? 8287) || (c =? 12288).

Fixpoint py_lstrip (s : str) : str :=
  match s with
  | [] => []
  | c :: s' => if is_space c then py_lstrip s' else s
  end.

Definition py_rstrip (s : str) : str := reverse (py_lstrip (reverse s)).

Definition py_strip (s : str) : str := py_rstrip (py_lstrip s).

(** Comparison of [str] values, as [sorted] uses it: lexicographic on code
    points, a proper prefix first. *)
Fixpoint str_leb (s t : str) : bool :=
  match s, t with
  | [], _ => true
  | _ :: _, [] => false
  | a :: s', b :: t' =>
      if a <? b then true else if a =? b then str_leb s' t' else false
  end.

Definition str_le : relation str := fun s t => str_leb s t = true.

Global Instance str_le_dec : RelDecision str_le.
Proof.
  intros s t. unfold str_le.
  destruct (str_leb s t); [left; reflexivity | right; discriminate].
Defined.

Definition sorted (l : list str) : list str := merge_sort str_le l.

(** [io.TextIOWrapper.readlines()] with universal newlines: a line ends at
    [\n], [\r] or [\r\n], each handed back as [\n]; a last line without
    terminator is kept as it is. *)
Fixpoint readlines_go (cur : str) (s : str) : list str :=
  match s with
  | [] => match cur with [] => [] | _ => [reverse cur] end
  | c :: s' =>
      if c =? LF then reverse (LF :: cur) :: readlines_go [] s'
      else if c =? CR then
        match s' with
        | d :: s'' =>
            if d =? LF then reverse (LF :: cur) :: readlines_go [] s''
            else reverse (LF :: cur) :: readlines_go [] s'
        | [] => [reverse (LF :: cur)]
        end
      else readlines_go (c :: cur) s'
  end.

(** ** [str.encode('utf-8')]

    [None] stands for [UnicodeEncodeError]: a surrogate (which [os.walk]
    produces for undecodable file-name bytes) has no UTF-8 encoding.  A
    [str] holds no code point above [0x10FFFF]; the model refuses those
    too. *)
Definition utf8_char (c : N) : option (list N) :=
  if c <? 0x80 then Some [c]
  else if c <? 0x800 then
    Some [N.lor 0xC0 (N.shiftr c 6); N.lor 0x80 (N.land c 0x3F)]
  else if (0xD800 <=? c) && (c <=? 0xDFFF) then None
  else if c <? 0x10000 then
    Some [N.lor 0xE0 (N.shiftr c 12);
          N.lor 0x80 (N.land (N.shiftr c 6) 0x3F);
          N.lor 0x80 (N.land c 0x3F)]
  else if c <? 0x110000 then
    Some [N.lor 0xF0 (N.shiftr c 18);
          N.lor 0x80 (N.land (N.shiftr c 12) 0x3F);
          N.lor 0x80 (N.land (N.shiftr c 6) 0x3F);
          N.lor 0x80 (N.land c 0x3F)]
  else None.

Fixpoint encode_utf8 (s : str) : option (list N) :=
  match s with
  | [] => Some []
  | c :: s' =>
      match utf8_char c, encode_utf8 s' with
      | Some bs, Some rest => Some (bs ++ rest)
      | _, _ => None
      end
  end.

(** ** [hashlib.sha256(...).hexdigest()]

    SHA-256 of FIPS 180-4 on a list of bytes; a word is an [N] below
    [2^32]. *)
Module SHA256.

Definition mask32 : N := 0xFFFFFFFF.
Definition add32 (a b : N) : N := N.land (a + b) mask32.
Definition rotr (n x : N) : N :=
  N.lor (N.shiftr x n) (N.land (N.shiftl x (32 - n)) mask32).
Definition xor3 (a b c : N) : N := N.lxor (N.lxor a b) c.

Definition Ch (x y z : N) : N :=
  N.lxor (N.land x y) (N.land (N.lxor x mask32) z).
Definition Maj (x y z : N) : N :=
  xor3 (N.land x y) (N.land x z) (N.land y z).
Definition Sigma0 (x : N) : N := xor3 (rotr 2 x) (rotr 13 x) (rotr 22 x).
Definition Sigma1 (x : N) : N := xor3 (rotr 6 x) (rotr 11 x) (rotr 25 x).
Definition sigma0 (x : N) : N := xor3 (rotr 7 x) (rotr 18 x) (N.shiftr x 3).
Definition sigma1 (x : N) : N := xor3 (rotr 17 x) (rotr 19 x) (N.shiftr x 10).

(** The largest [r] below [2^bits] with [r^k <= n], found bit by bit. *)
Fixpoint root_floor (k : N) (bits : nat) (n r : N) : N :=
  match bits with
  | O => r
  | S b =>
      let r' := N.lor r (N.shiftl 1 (N.of_nat b)) in
      root_floor k b n (if r' ^ k <=? n then r' else r)
  end.

Definition is_prime (n : N) : bool :=
  (2 <=? n) && forallb (fun d => negb (n mod d =? 0))
                       (map N.of_nat (seq 2 (N.to_nat n - 2))).

(** The first 64 primes: 2, 3, 5, ..., 311. *)
Definition primes : list N :=
  Eval vm_compute in List.filter is_prime (map N.of_nat (seq 0 312)).

(** The round constants: the first 32 bits of the fractional parts of the
    cube roots of the first 64 primes. *)
Definition K : list N :=
  Eval vm_compute in
    map (fun p => N.land (root_floor 3 40 (p * 2 ^ 96) 0) mask32) primes.

(** The initial hash value: the same of the square roots of the first 8
    primes. *)
Definition H0 : list N :=
  Eval vm_compute in
    map (fun p => N.land (root_floor 2 40 (p * 2 ^ 64) 0) mask32) (take 8 primes).

(** Big-endian bytes of [x], [n] of them. *)
Fixpoint be_bytes (n : nat) (x : N) : list N :=
  match n with
  | O => []
  | S n' => be_bytes n' (N.shiftr x 8) ++ [N.land x 0xFF]
  end.

Definition be_word (bs : list N) : N :=
  foldl (fun acc b => N.lor (N.shiftl acc 8) b) 0 bs.

(** The message, a [1] bit, zero bits up to 56 modulo 64 bytes, and the
    bit length on 64 bits. *)
Definition pad (msg : list N) : list N :=
  let len := length msg in
  let zeros := ((64 - (len + 9) mod 64) mod 64)%nat in
  msg ++ 0x80 :: replicate zeros 0 ++ be_bytes 8 (8 * N.of_nat len).

Fixpoint chunks (fuel n : nat) (l : list N) : list (list N) :=
  match fuel with
  | O => []
  | S fuel' =>
      match l with
      | [] => []
      | _ => take n l :: chunks fuel' n (drop n l)
      end
  end.

(** The message schedule, latest word first: [W_t] from [W_(t-2)],
    [W_(t-7)], [W_(t-15)] and [W_(t-16)]. *)
Fixpoint extend (n : nat) (rev_w : list N) : list N :=
  match n with
  | O => rev_w
  | S n' =>
      let w :=
        add32 (add32 (sigma1 (nth 1 rev_w 0)) (nth 6 rev_w 0))
              (add32 (sigma0 (nth 14 rev_w 0)) (nth 15 rev_w 0)) in
      extend n' (w :: rev_w)
  end.

Definition schedule (block : list N) : list N :=
  reverse (extend 48 (reverse (map be_word (chunks 16 4 block)))).

Record regs := Regs { ra : N; rb : N; rc : N; rd : N;
                      re : N; rf : N; rg : N; rh : N }.

Definition round (s : regs) (kw : N * N) : regs :=
  let t1 := add32 (add32 (add32 (rh s) (Sigma1 (re s)))
                         (add32 (Ch (re s) (rf s) (rg s)) (fst kw)))
                  (snd kw) in
  let t2 := add32 (Sigma0 (ra s)) (Maj (ra s) (rb s) (rc s)) in
  Regs (add32 t1 t2) (ra s) (rb s) (rc s) (add32 (rd s) t1) (re s) (rf s) (rg s).

Definition of_list (h : list N) : regs :=
  Regs (nth 0 h 0) (nth 1 h 0) (nth 2 h 0) (nth 3 h 0)
       (nth 4 h 0) (nth 5 h 0) (nth 6 h 0) (nth 7 h 0).

Definition to_list (s : regs) : list N :=
  [ra s; rb s; rc s; rd s; re s; rf s; rg s; rh s].

Definition compress (h : list N) (block : list N) : list N :=
  let s := foldl round (of_list h) (zip K (schedule block)) in
  zip_with add32 h (to_list s).

Definition digest (msg : list N) : list N :=
  let padded := pad msg in
  let h := foldl compress H0 (chunks (length padded) 64 padded) in
  concat (map (be_bytes 4) h).

Definition hex_digit (d : N) : N := if d <? 10 then 48 + d else 87 + d.

Definition hex (bs : list N) : str :=
  concat (map (fun b => [hex_digit (N.shiftr b 4); hex_digit (N.land b 0xF)]) bs).

Definition hexdigest (msg : list N) : str := hex (digest msg).

End SHA256.

(** [hashlib.sha256(s.encode('utf-8')).hexdigest()] *)
Definition sha256_hex (s : str) : option str :=
  match encode_utf8 s with
  | Some bs => Some (SHA256.hexdigest bs)
  | None => None
  end.

(** ** Exceptions and results *)

Inductive exn :=
| IndexError
| KeyError
| OSError
| FileNotFoundError
| IsADirectoryError
| UnicodeEncodeError
| ClientError
| S3UploadFailedError
| SystemExit (code : Z).

Inductive result (A : Type) :=
| Ok (a : A)
| Raise (e : exn).
Arguments Ok {A} a.
Arguments Raise {A} e.

Global Instance result_ret : MRet result := fun A a => Ok a.
Global Instance result_bind : MBind result := fun A B k m =>
  match m with
  | Ok a => k a
  | Raise e => Raise e
  end.

Global Instance result_fmap : FMap result := fun A B f m =>
  match m with
  | Ok a => Ok (f a)
  | Raise e => Raise e
  end.

(** [for x in xs: acc = body(acc, x)], left at the first exception. *)
Fixpoint for_each {A S : Type} (body : S -> A -> result S) (acc : S) (xs : list A)
  : result S :=
  match xs with
  | [] => Ok acc
  | x :: xs' =>
      match body acc x with
      | Ok acc' => for_each body acc' xs'
      | Raise e => Raise e
      end
  end.

(** ** The Dependency Fingerprinter: [freeze_requirements]

    What the function sees of the file system: the triples
    [(subdir, dirs, files)] that [os.walk(path)] yields, in the order it
    yields them, and the text of a file opened for reading. *)
Record filesystem := {
  os_walk : str -> list (str * list str * list str);
  open_text : str -> result str
}.

Definition readlines (text : str) : list str := readlines_go [] text.

(** [f"{package_name}=={package_version}"] *)
Definition entry (package_name package_version : str) : str :=
  package_name ++ lit "==" ++ package_version.

(** The truth value of a variable that holds [False] ([None] here) or a
    [str]. *)
Definition truthy (v : option str) : bool :=
  match v with
  | Some (_ :: _) => true
  | _ => false
  end.

(** One turn of [for line in lines]; the state is
    [(package_version, package_name)]. *)
Definition scan_line (st : option str * option str) (line : str)
  : option str * option str :=
  let package_version :=
    if str_eqb (take 8 line) (lit "Version:")
    then Some (py_strip (drop 8 line)) else fst st in
  let package_name :=
    if str_eqb (take 5 line) (lit "Name:")
    then Some (py_strip (drop 5 line)) else snd st in
  (package_version, package_name).

(** The [(name, version)] that the lines of a [PKG-INFO] give, when both
    are set and not empty. *)
Definition pkg_info (lines : list str) : option (str * str) :=
  let st := foldl scan_line (None, None) lines in
  if truthy (fst st) && truthy (snd st)
  then match st with
       | (Some package_version, Some package_name) =>
           Some (package_name, package_version)
       | _ => None
       end
  else None.

(** The [(name, version)] that a directory name gives: [None] when it does
    not end in [.dist-info], [IndexError] for [package_info[1]] when the
    stem holds no hyphen. *)
Definition dist_info (dir : str) : result (option (str * str)) :=
  if str_eqb (py_last 10 dir) (lit ".dist-info") then
    let package_info := py_split HYPHEN (py_but_last 10 dir) in
    match package_info with
    | package_name :: package_version :: _ =>
        Ok (Some (package_name, package_version))
    | _ => Raise IndexError
    end
  else Ok None.

Section Collect.
(** The source appends [entry name version] to [requirements] at each
    discovery; [emit] is that formatting, a parameter so that the pairs
    themselves can be collected by the same walk ([discovered]). *)
Context {B : Type} (emit : str -> str -> B).

Definition append_found (requirements : list B) (found : option (str * str))
  : list B :=
  match found with
  | Some (package_name, package_version) =>
      requirements ++ [emit package_name package_version]
  | None => requirements
  end.

(** Body of [for dir in dirs]. *)
Definition scan_dir (requirements : list B) (dir : str) : result (list B) :=
  found ← dist_info dir; Ok (append_found requirements found).

(** Body of [for file in files]. *)
Definition scan_file (fs : filesystem) (subdir : str)
    (requirements : list B) (file : str) : result (list B) :=
  if str_eqb file (lit "PKG-INFO") && str_eqb (py_last 8 subdir) (lit "egg-info")
  then
    text ← open_text fs (subdir ++ lit "/" ++ file);
    Ok (append_found requirements (pkg_info (readlines text)))
  else Ok requirements.

(** Body of [for subdir, dirs, files in os.walk(path)]. *)
Definition scan_triple (fs : filesystem) (requirements : list B)
    (t : str * list str * list str) : result (list B) :=
  let '(subdir, dirs, files) := t in
  requirements ← for_each scan_dir requirements dirs;
  for_each (scan_file fs subdir) requirements files.

Definition collect (fs : filesystem) (path : str) : result (list B) :=
  for_each (scan_triple fs) [] (os_walk fs path).
End Collect.

Definition entry_of (p : str * str) : str := entry (fst p) (snd p).

(** The list [requirements] when the walk is over. *)
Definition collect_requirements : filesystem -> str -> result (list str) :=
  collect entry.

(** The [(name, version)] pairs behind [requirements], in discovery
    order. *)
Definition discovered : filesystem -> str -> result (list (str * str)) :=
  collect (fun name version => (name, version)).

(** [requirements_txt] and [requirements_hash] of a collected list: the
    digest is taken of [requirements_txt] before [strip()]. *)
Definition joined (requirements : list str) : str :=
  py_join LF (sorted requirements).

Definition manifest_of (requirements : list str) : result (str * str) :=
  let requirements_txt := joined requirements in
  match sha256_hex requirements_txt with
  | Some requirements_hash => Ok (py_strip requirements_txt, requirements_hash)
  | None => Raise UnicodeEncodeError
  end.

(** The [version] of a request: a string or a number. *)
Inductive value :=
| VStr (s : str)
| VInt (z : Z).

(** [str(version)] *)
Definition py_str (v : value) : str :=
  match v with
  | VStr s => s
  | VInt z => lit (DecimalString.NilZero.string_of_int (Z.to_int z))
  end.

Definition freeze_requirements (fs : filesystem) (package path : str)
    (version : value) : result (str * str) :=
  requirements ← collect_requirements fs path;
  manifest_of requirements.


(** ** The installed tree and the local file system

    A directory entry as [os.scandir] tells them apart: a regular file with
    its [st_size] and what reading it as text gives, a directory, or
    something that is neither. *)
#[warnings="-register-all"] Inductive node :=
| File (name : str) (size : N) (text : result str)
| Dir (name : str) (children : list node)
| Other (name : str).

Definition SLASH : N := 47.

Definition dir_names (children : list node) : list str :=
  omap (fun n => match n with Dir name _ => Some name | _ => None end) children.

Definition file_names (children : list node) : list str :=
  omap (fun n => match n with
                 | Dir _ _ => None
                 | File name _ _ | Other name => Some name
                 end) children.

(** [os.walk], top-down: a directory's triple, then the walks of its
    sub-directories in the order of [dirs]. *)
Fixpoint walk_node (parent : str) (n : node) : list (str * list str * list str) :=
  match n with
  | Dir name children =>
      let top := parent ++ SLASH :: name in
      (top, dir_names children, file_names children)
        :: (fix sub (l : list node) :=
              match l with
              | [] => []
              | x :: l' => walk_node top x ++ sub l'
              end) children
  | _ => []
  end.

Definition walk (top : str) (children : list node)
  : list (str * list str * list str) :=
  (top, dir_names children, file_names children)
    :: concat (map (walk_node top) children).

(** Every non-directory below a directory, by path, with what [open(path,
    'r')] and reading give. *)
Fixpoint node_files (parent : str) (n : node) : list (str * result str) :=
  match n with
  | File name _ text => [(parent ++ SLASH :: name, text)]
  | Other name => [(parent ++ SLASH :: name, Raise OSError)]
  | Dir name children =>
      let top := parent ++ SLASH :: name in
      (fix sub (l : list node) :=
         match l with
         | [] => []
         | x :: l' => node_files top x ++ sub l'
         end) children
  end.

Definition read_in (top : str) (children : list node) (path : str) : result str :=
  match List.find (fun e => str_eqb (fst e) path)
                  (concat (map (node_files top) children)) with
  | Some (_, text) => text
  | None => Raise FileNotFoundError
  end.

(** The file system that [freeze_requirements] sees when [top] holds
    [children]; [os.walk] of a missing directory yields nothing. *)
Definition fs_of (top : str) (dir : option (list node)) : filesystem :=
  {| os_walk := fun path =>
       match dir with
       | Some children => if str_eqb path top then walk top children else []
       | None => []
       end;
     open_text := fun path =>
       match dir with
       | Some children => read_in top children path
       | None => Raise FileNotFoundError
       end |}.

(** [entry.stat().st_size] summed as [dir_size] does, sub-directories
    included. *)
Fixpoint node_size (n : node) : N :=
  match n with
  | File _ size _ => size
  | Dir _ children =>
      (fix total (l : list node) :=
         match l with
         | [] => 0
         | x :: l' => node_size x + total l'
         end) children
  | Other _ => 0
  end.

(** ** The world of one run

    The directories under [/tmp] that the run touches (by path), the zip
    files written there, the ledger table [REQS_DB], the bucket
    [BUCKET_NAME], and the calls made to the collaborators, oldest first. *)
Record archive := { a_base_dir : str; a_content : list node }.

Record item := {
  i_package : str;
  i_version : str;
  i_requirements : str;
  i_requirements_hash : str;
  i_created_date : str
}.

Inductive call :=
| PipInstall (package target : str)
| PipFreeze
| DynamoQuery (package requirements_hash : str)
| S3Upload (key : str) (done : bool)
| S3List (prefix : str)
| DynamoPutItem (it : item) (done : bool).

Record world := {
  w_dirs : gmap str (list node);
  w_zips : gmap str archive;
  w_table : list item;
  w_bucket : gmap str archive;
  w_calls : list call
}.

(** What the collaborators do in a run: the exit status of
    [pip install] and the target directory it leaves ([None]: no
    directory), the clock, and which service calls fail. *)
Record pip_result := { returncode : Z; target_dir : option (list node) }.

Record env := {
  pip_install : str -> str -> pip_result;
  now_isoformat : str;
  query_error : bool;
  upload_error : bool;
  list_error : bool;
  put_error : bool
}.

Definition M (A : Type) : Type := world -> result A * world.

Global Instance M_ret : MRet M := fun A a w => (Ok a, w).
Global Instance M_bind : MBind M := fun A B k m w =>
  match m w with
  | (Ok a, w') => k a w'
  | (Raise e, w') => (Raise e, w')
  end.

Definition raise {A : Type} (e : exn) : M A := fun w => (Raise e, w).
Definition get : M world := fun w => (Ok w, w).
Definition lift {A : Type} (r : result A) : M A := fun w => (r, w).

Definition with_dirs (f : gmap str (list node) -> gmap str (list node))
    (w : world) : world :=
  {| w_dirs := f (w_dirs w); w_zips := w_zips w; w_table := w_table w;
     w_bucket := w_bucket w; w_calls := w_calls w |}.
Definition with_zips (f : gmap str archive -> gmap str archive)
    (w : world) : world :=
  {| w_dirs := w_dirs w; w_zips := f (w_zips w); w_table := w_table w;
     w_bucket := w_bucket w; w_calls := w_calls w |}.
Definition with_table (f : list item -> list item) (w : world) : world :=
  {| w_dirs := w_dirs w; w_zips := w_zips w; w_table := f (w_table w);
     w_bucket := w_bucket w; w_calls := w_calls w |}.
Definition with_bucket (f : gmap str archive -> gmap str archive)
    (w : world) : world :=
  {| w_dirs := w_dirs w; w_zips := w_zips w; w_table := w_table w;
     w_bucket := f (w_bucket w); w_calls := w_calls w |}.
Definition with_call (c : call) (w : world) : world :=
  {| w_dirs := w_dirs w; w_zips := w_zips w; w_table := w_table w;
     w_bucket := w_bucket w; w_calls := w_calls w ++ [c] |}.

Definition set_dirs (f : gmap str (list node) -> gmap str (list node)) : M unit :=
  fun w => (Ok tt, with_dirs f w).
Definition set_zips (f : gmap str archive -> gmap str archive) : M unit :=
  fun w => (Ok tt, with_zips f w).
Definition set_table (f : list item -> list item) : M unit :=
  fun w => (Ok tt, with_table f w).
Definition set_bucket (f : gmap str archive -> gmap str archive) : M unit :=
  fun w => (Ok tt, with_bucket f w).
Definition called (c : call) : M unit :=
  fun w => (Ok tt, with_call c w).

(** ** The Ledger Client *)

(** [Key("package").eq(package) & Key("requirements_hash").eq(hash)] *)
Definition key_matches (package requirements_hash : str) (it : item) : bool :=
  str_eqb (i_package it) package
  && str_eqb (i_requirements_hash it) requirements_hash.

(** [put_item]: the table holds one item per key, a new one replaces it. *)
Definition put_item (it : item) (table : list item) : list item :=
  List.filter (fun old => negb (key_matches (i_package it) (i_requirements_hash it) old))
              table ++ [it].

Definition put_requirements_hash (e : env) (package : str) (version : value)
    (requirements_txt requirements_hash : str) : M unit :=
  let it := {| i_package := package;
               i_version := py_str version;
               i_requirements := requirements_txt;
               i_requirements_hash := requirements_hash;
               i_created_date := now_isoformat e |} in
  if put_error e then
    called (DynamoPutItem it false);; raise (SystemExit 1)
  else
    called (DynamoPutItem it true);; set_table (put_item it).

Definition check_requirement_hash (e : env) (package requirements_hash : str)
  : M bool :=
  called (DynamoQuery package requirements_hash);;
  if query_error e then raise ClientError
  else
    w ← get;
    let items := List.filter (key_matches package requirements_hash) (w_table w) in
    let hash_found := if (0 <? length items)%nat then true else false in
    mret hash_found.

(** ** The Artifact Publisher *)

Definition starts_with (prefix s : str) : bool :=
  str_eqb (take (length prefix) s) prefix.

Definition upload_to_s3 (e : env) (zip_file package uploaded_file_name : str)
  : M str :=
  w ← get;
  match w_zips w !! zip_file with
  | None => raise FileNotFoundError
  | Some body =>
      (if upload_error e then
         called (S3Upload uploaded_file_name false);; raise S3UploadFailedError
       else
         called (S3Upload uploaded_file_name true);;
         set_bucket (insert uploaded_file_name body));;
      called (S3List package);;
      (if list_error e then raise ClientError else mret tt);;
      w ← get;
      (* response['Contents'][0] *)
      if existsb (starts_with package) (map fst (map_to_list (w_bucket w)))
      then mret uploaded_file_name
      else raise KeyError
  end.

(** ** The Archiver

    [shutil.make_archive(base_name='/tmp/<package>', format="zip",
    base_dir=<last segment of dir_path>, root_dir="/tmp")].  The zip file
    is opened for writing before anything is read, so from then on it
    exists, without entries.  The root entry is then taken from
    [base_dir] under [/tmp], both normalised: an empty segment or [.] is
    [/tmp] itself and gives no root entry ([a_base_dir] is then [.]), and
    [..] is the parent of [/tmp]; these two are looked up in the world
    under their own paths, as every directory is.  A directory gives the
    root entry and what the walk finds below it; a regular file (here: a
    zip file) gives the root entry alone; nothing at that path is
    [FileNotFoundError] from reading the root entry, and without a root
    entry the walk of a missing directory finds nothing. *)

Definition no_entries : archive := {| a_base_dir := lit "."; a_content := [] |}.

(** [os.path.normpath(base_dir)] and
    [os.path.normpath(os.path.join("/tmp", base_dir))] for a [base_dir]
    without [/]. *)
Definition arcname_of (base_dir : str) : str :=
  if str_eqb base_dir [] || str_eqb base_dir (lit ".") then lit "." else base_dir.

Definition under_tmp (base_dir : str) : str :=
  if str_eqb base_dir [] || str_eqb base_dir (lit ".") then lit "/tmp"
  else if str_eqb base_dir (lit "..") then lit "/"
  else lit "/tmp/" ++ base_dir.

Definition zip_dir (dir_path package : str) : M str :=
  let zip_file := lit "/tmp/" ++ package in
  let base_dir := default [] (last (py_split SLASH dir_path)) in
  set_zips (insert (zip_file ++ lit ".zip") no_entries);;
  w ← get;
  match w_dirs w !! under_tmp base_dir with
  | Some children =>
      set_zips (insert (zip_file ++ lit ".zip")
                       {| a_base_dir := arcname_of base_dir; a_content := children |});;
      mret (zip_file ++ lit ".zip")
  | None =>
      if str_eqb (arcname_of base_dir) (lit ".") then mret (zip_file ++ lit ".zip")
      else match w_zips w !! under_tmp base_dir with
           | Some _ =>
               set_zips (insert (zip_file ++ lit ".zip")
                                {| a_base_dir := arcname_of base_dir; a_content := [] |});;
               mret (zip_file ++ lit ".zip")
           | None => raise FileNotFoundError
           end
  end.

(** ** The Installer Adapter *)

Definition delete_dir (dir : str) : M bool :=
  set_dirs (delete dir);; mret true.

Definition dir_size (path : str) : M N :=
  w ← get;
  match w_dirs w !! path with
  | None => raise FileNotFoundError
  | Some children => mret (foldl (fun total n => total + node_size n) 0 children)
  end.

(** The exit status of neither [subprocess.run] is looked at. *)
Definition install (e : env) (package package_dir : str) : M str :=
  delete_dir package_dir;;
  called (PipInstall package package_dir);;
  (match target_dir (pip_install e package package_dir) with
   | Some children => set_dirs (insert package_dir children)
   | None => mret tt
   end);;
  called PipFreeze;;
  mret package_dir.

(** ** The Pipeline Orchestrator: [main] *)

(** [freeze_requirements] on the directories of the world. *)
Definition freeze_requirements_here (package path : str) (version : value)
  : M (str * str) :=
  w ← get;
  lift (freeze_requirements (fs_of path (w_dirs w !! path)) package path version).

(** [with open(f"{package_dir}/requirements.txt", 'w') as f: f.write(text)]:
    the file is created in the directory, or replaces the one of that
    name. *)
Definition same_name (name : str) (n : node) : bool :=
  match n with
  | File m _ _ | Dir m _ | Other m => str_eqb m name
  end.

Definition write_text (dir name text : str) : M unit :=
  w ← get;
  match w_dirs w !! dir with
  | None => raise FileNotFoundError
  | Some children =>
      if existsb (fun n => match n with Dir m _ => str_eqb m name | _ => false end)
                 children
      then raise IsADirectoryError
      else match encode_utf8 text with
           | None => raise UnicodeEncodeError
           | Some bytes =>
               set_dirs (insert dir
                 (List.filter (fun n => negb (same_name name n)) children
                  ++ [File name (N.of_nat (length bytes)) (Ok text)]))
           end
  end.

(** [os.path.getsize(zip_file)], for the log line only. *)
Definition getsize (path : str) : M unit :=
  w ← get;
  match w_zips w !! path with
  | None => raise FileNotFoundError
  | Some _ => mret tt
  end.

Section Main.
(** [license_info] is passed through as it comes. *)
Context {L : Type}.

(** The [event] dictionary: a missing key is [None]. *)
Record event := {
  ev_package : option str;
  ev_version : option value;
  ev_license_info : option L
}.

(** The dictionary [main] returns. *)
Record output := {
  zip_file : str;
  package : str;
  version : value;
  requirements_hash : str;
  license_info : L
}.

(** [event[key]] *)
Definition subscript {A : Type} (field : option A) : M A :=
  match field with
  | Some a => mret a
  | None => raise KeyError
  end.

Definition main (e : env) (ev : event) : M output :=
  package ← subscript (ev_package ev);
  version ← subscript (ev_version ev);
  license_info ← subscript (ev_license_info ev);
  let package_dir := lit "/tmp/python" in
  let uploaded_file_name := package ++ lit ".zip" in
  package_dir ← install e package package_dir;
  package_size ← dir_size package_dir;
  '(requirements_txt, requirements_hash) ←
    freeze_requirements_here package package_dir version;
  write_text package_dir (lit "requirements.txt") requirements_txt;;
  zip_file ← zip_dir package_dir package;
  hash_found ← check_requirement_hash e package requirements_hash;
  (if negb hash_found then
     upload_to_s3 e zip_file package uploaded_file_name;;
     put_requirements_hash e package version requirements_txt requirements_hash;;
     getsize zip_file
   else mret tt);;
  mret {| zip_file := uploaded_file_name;
          package := package;
          version := version;
          requirements_hash := requirements_hash;
          license_info := license_info |}.
End Main.
Arguments event : clear implicits.
Arguments output : clear implicits.

(** The entry sequence of the manifest: [sorted(requirements)]. *)
Definition manifest_entries (fs : filesystem) (path : str) : result (list str) :=
  sorted <$> collect_requirements fs path.

(** ** Installed trees used as examples *)

Definition tmp_python : str := lit "/tmp/python".

Definition text_file (name text : str) : node :=
  File name (N.of_nat (length text)) (Ok text).

(** [requests] and [urllib3], listed in two orders. *)
Definition tree_requests : list node :=
  [Dir (lit "requests-2.31.0.dist-info") [text_file (lit "METADATA") (lit "x")];
   Dir (lit "requests") [text_file (lit "api.py") (lit "pass")];
   Dir (lit "urllib3-2.0.0.dist-info") []].

Definition tree_requests_rev : list node :=
  [Dir (lit "urllib3-2.0.0.dist-info") [];
   Dir (lit "requests") [text_file (lit "api.py") (lit "pass")];
   Dir (lit "requests-2.31.0.dist-info") [text_file (lit "METADATA") (lit "x")]].

(** [foo 1.0] present both as a [.dist-info] directory and as an
    [.egg-info] directory with a [PKG-INFO]. *)
Definition tree_twice : list node :=
  [Dir (lit "foo-1.0.dist-info") [];
   Dir (lit "foo.egg-info")
     [text_file (lit "PKG-INFO")
        (lit "Name: foo" ++ LF :: lit "Version: 1.0" ++ [LF])]].

(** A [.dist-info] directory whose version segment ends in a space. *)
Definition tree_space : list node := [Dir (lit "foo-1.0 .dist-info") []].

(** The value a [PKG-INFO] gives for a header: that of the last line that
    starts with [prefix], stripped ([None] without such a line).  Used to
    state what [pkg_info] computes. *)
Fixpoint last_header (prefix : str) (lines : list str) : option str :=
  match lines with
  | [] => None
  | line :: rest =>
      match last_header prefix rest with
      | Some v => Some v
      | None =>
          if starts_with prefix line
          then Some (py_strip (drop (length prefix) line))
          else None
      end
  end.

(** [foo 1.2.3] as a [.dist-info] directory, [bar 4.5.6] as an [.egg-info]
    with both headers (and [\r\n] line ends), [baz] as an [.egg-info]
    without [Version:]. *)
Definition tree_parsing : list node :=
  [Dir (lit "foo-1.2.3.dist-info") [];
   Dir (lit "bar.egg-info")
     [text_file (lit "PKG-INFO")
        (lit "Metadata-Version: 2.1" ++ CR :: LF :: lit "Name: bar"
         ++ CR :: LF :: lit "Version: 4.5.6" ++ [CR; LF])];
   Dir (lit "baz.egg-info")
     [text_file (lit "PKG-INFO") (lit "Name: baz" ++ LF :: lit "Summary: none")]].

(** No line feed in a string, in the name and version of a pair. *)
Definition no_lf (s : str) : bool := forallb (fun c => negb (c =? LF)) s.

Definition pair_no_lf (p : str * str) : bool := no_lf (fst p) && no_lf (snd p).

(** Directory names with line feeds in them.  Package [n] has version
    [1\nn==2] in the first tree and [2\nn==1] in the second; the other
    package, [n==1\nn==2\nn] at version [1], is the same in both. *)
Definition tree_lf_1 : list node :=
  [Dir (lit "n-1" ++ LF :: lit "n==2.dist-info") [];
   Dir (lit "n==1" ++ LF :: lit "n==2" ++ LF :: lit "n-1.dist-info") []].

Definition tree_lf_2 : list node :=
  [Dir (lit "n-2" ++ LF :: lit "n==1.dist-info") [];
   Dir (lit "n==1" ++ LF :: lit "n==2" ++ LF :: lit "n-1.dist-info") []].

(** [tree_requests] with [urllib3] at another version. *)
Definition tree_requests_new : list node :=
  [Dir (lit "requests-2.31.0.dist-info") [text_file (lit "METADATA") (lit "x")];
   Dir (lit "requests") [text_file (lit "api.py") (lit "pass")];
   Dir (lit "urllib3-2.0.1.dist-info") []].

(** ** The runs of [main], case by case

    [main_run e ev w r w'] lists what a run from [w] can end in: the
    result [r], the two stores, and the calls added to the trace. *)

Definition is_upload (c : call) : bool :=
  match c with S3Upload _ _ => true | _ => false end.

Definition is_put_item (c : call) : bool :=
  match c with DynamoPutItem _ _ => true | _ => false end.

Definition in_ledger (package requirements_hash : str) (table : list item) : bool :=
  existsb (key_matches package requirements_hash) table.

Section Runs.
Context {L : Type} (e : env).

(** The directory that [pip install] leaves for [package], and what
    [freeze_requirements] makes of it. *)
Definition installed (package : str) : option (list node) :=
  target_dir (pip_install e package tmp_python).

Definition frozen (package : str) (version : value) : result (str * str) :=
  freeze_requirements (fs_of tmp_python (installed package))
    package tmp_python version.

Definition pip_calls (package : str) : list call :=
  [PipInstall package tmp_python; PipFreeze].

Definition new_item (package : str) (version : value) (txt h : str) : item :=
  {| i_package := package; i_version := py_str version;
     i_requirements := txt; i_requirements_hash := h;
     i_created_date := now_isoformat e |}.

Definition result_of (package : str) (version : value) (h : str) (license : L)
  : output L :=
  {| zip_file := package ++ lit ".zip"; package := package; version := version;
     requirements_hash := h; license_info := license |}.

Definition stores_kept (w w' : world) : Prop :=
  w_table w' = w_table w ∧ w_bucket w' = w_bucket w.

Definition uploaded (package : str) (w w' : world) : Prop :=
  ∃ body, w_bucket w' = <[package ++ lit ".zip" := body]> (w_bucket w).

Inductive run_from (w : world) (package : str) (version : value) (license : L)
  : result (output L) → world → Prop :=
| run_no_directory w' :
    installed package = None →
    stores_kept w w' →
    w_calls w' = w_calls w ++ pip_calls package →
    run_from w package version license (Raise FileNotFoundError) w'
| run_freeze_raises children ex w' :
    installed package = Some children →
    frozen package version = Raise ex →
    stores_kept w w' →
    w_calls w' = w_calls w ++ pip_calls package →
    run_from w package version license (Raise ex) w'
| run_write_raises children txt h ex w' :
    installed package = Some children →
    frozen package version = Ok (txt, h) →
    ex = IsADirectoryError ∨ ex = UnicodeEncodeError →
    stores_kept w w' →
    w_calls w' = w_calls w ++ pip_calls package →
    run_from w package version license (Raise ex) w'
| run_query_raises children txt h w' :
    installed package = Some children →
    frozen package version = Ok (txt, h) →
    query_error e = true →
    stores_kept w w' →
    w_calls w' = w_calls w ++ pip_calls package ++ [DynamoQuery package h] →
    run_from w package version license (Raise ClientError) w'
| run_skipped children txt h w' :
    installed package = Some children →
    frozen package version = Ok (txt, h) →
    query_error e = false →
    in_ledger package h (w_table w) = true →
    stores_kept w w' →
    w_calls w' = w_calls w ++ pip_calls package ++ [DynamoQuery package h] →
    run_from w package version license (Ok (result_of package version h license)) w'
| run_upload_raises children txt h w' :
    installed package = Some children →
    frozen package version = Ok (txt, h) →
    query_error e = false →
    in_ledger package h (w_table w) = false →
    upload_error e = true →
    stores_kept w w' →
    w_calls w' = w_calls w ++ pip_calls package
                 ++ [DynamoQuery package h; S3Upload (package ++ lit ".zip") false] →
    run_from w package version license (Raise S3UploadFailedError) w'
| run_list_raises children txt h w' :
    installed package = Some children →
    frozen package version = Ok (txt, h) →
    query_error e = false →
    in_ledger package h (w_table w) = false →
    upload_error e = false →
    list_error e = true →
    w_table w' = w_table w →
    uploaded package w w' →
    w_calls w' = w_calls w ++ pip_calls package
                 ++ [DynamoQuery package h; S3Upload (package ++ lit ".zip") true;
                     S3List package] →
    run_from w package version license (Raise ClientError) w'
| run_put_raises children txt h w' :
    installed package = Some children →
    frozen package version = Ok (txt, h) →
    query_error e = false →
    in_ledger package h (w_table w) = false →
    upload_error e = false →
    list_error e = false →
    put_error e = true →
    w_table w' = w_table w →
    uploaded package w w' →
    w_calls w' = w_calls w ++ pip_calls package
                 ++ [DynamoQuery package h; S3Upload (package ++ lit ".zip") true;
                     S3List package;
                     DynamoPutItem (new_item package version txt h) false] →
    run_from w package version license (Raise (SystemExit 1)) w'
| run_published children txt h w' :
    installed package = Some children →
    frozen package version = Ok (txt, h) →
    query_error e = false →
    in_ledger package h (w_table w) = false →
    upload_error e = false →
    list_error e = false →
    put_error e = false →
    w_table w' = put_item (new_item package version txt h) (w_table w) →
    uploaded package w w' →
    w_calls w' = w_calls w ++ pip_calls package
                 ++ [DynamoQuery package h; S3Upload (package ++ lit ".zip") true;
                     S3List package;
                     DynamoPutItem (new_item package version txt h) true] →
    run_from w package version license (Ok (result_of package version h license)) w'.

Inductive main_run (ev : event L) (w : world) : result (output L) → world → Prop :=
| run_key_error :
    ev_package ev = None ∨ ev_version ev = None ∨ ev_license_info ev = None →
    main_run ev w (Raise KeyError) w
| run_event package version license r w' :
    ev_package ev = Some package →
    ev_version ev = Some version →
    ev_license_info ev = Some license →
    run_from w package version license r w' →
    main_run ev w r w'.
End Runs.

(** ** Collaborators and worlds used as examples *)

Definition empty_world : world :=
  {| w_dirs := ∅; w_zips := ∅; w_table := []; w_bucket := ∅; w_calls := [] |}.

(** [pip install] succeeds and leaves [tree_requests]; no service call
    fails. *)
Definition env_ok : env :=
  {| pip_install := fun _ _ => {| returncode := 0; target_dir := Some tree_requests |};
     now_isoformat := lit "2024-01-01T00:00:00";
     query_error := false; upload_error := false;
     list_error := false; put_error := false |}.

(** [pip install] exits with status 1 and leaves a directory behind. *)
Definition env_pip_fails_with_dir : env :=
  {| pip_install := fun _ _ => {| returncode := 1; target_dir := Some tree_requests |};
     now_isoformat := lit "2024-01-01T00:00:00";
     query_error := false; upload_error := false;
     list_error := false; put_error := false |}.

(** [pip install] exits with status 1 and leaves no directory. *)
Definition env_pip_fails : env :=
  {| pip_install := fun _ _ => {| returncode := 1; target_dir := None |};
     now_isoformat := lit "2024-01-01T00:00:00";
     query_error := false; upload_error := false;
     list_error := false; put_error := false |}.

Definition event_requests : event string :=
  {| ev_package := Some (lit "requests");
     ev_version := Some (VStr (lit "2.31.0"));
     ev_license_info := Some "MIT"%string |}.

Definition hash_requests : str :=
  lit "7df5d5cd81a83f65a4a9651ff4f8db30df74b1153476644c8d5318fb3bb8df56".

(** The world after a first, publishing run of [event_requests]. *)
Definition world_published : world := snd (main env_ok event_requests empty_world).

(** ** Further definitions for the properties of the helpers *)

(** A triple of the walk that holds a marker: a directory name ending in
    [.dist-info], or a file [PKG-INFO] in a directory ending in
    [egg-info]. *)
Definition has_marker (t : str * list str * list str) : bool :=
  existsb (fun dir => str_eqb (py_last 10 dir) (lit ".dist-info")) (snd (fst t))
  || (str_eqb (py_last 8 (fst (fst t))) (lit "egg-info")
      && existsb (fun file => str_eqb file (lit "PKG-INFO")) (snd t)).

(** [hashlib.sha256(b'').hexdigest()] *)
Definition empty_hash : str :=
  lit "e3b0c44298fc1c149afbf4c8996fb92427ae41e4649b934ca495991b7852b855".

(** A tree without markers: the [PKG-INFO] is not in an [egg-info]
    directory. *)
Definition tree_plain : list node :=
  [Dir (lit "requests") [text_file (lit "api.py") (lit "pass")];
   text_file (lit "PKG-INFO") (lit "Name: stray")].

(** A [.dist-info] directory without a version segment. *)
Definition tree_no_version : list node :=
  [Dir (lit "requests") []; Dir (lit "broken.dist-info") []].

(** A file system with one [egg-info] directory; [other] is what opening
    any file but a [PKG-INFO] gives. *)
Definition fs_probe (other : result str) : filesystem :=
  {| os_walk := fun _ =>
       [(tmp_python, [lit "bar.egg-info"], [lit "setup.py"]);
        (lit "/tmp/python/bar.egg-info", [], [lit "PKG-INFO"; lit "SOURCES.txt"])];
     open_text := fun path =>
       if str_eqb (py_last 9 path) (lit "/PKG-INFO")
       then Ok (lit "Name: bar" ++ LF :: lit "Version: 4.5.6" ++ [LF])
       else other |}.

(** The code points that [encode('utf-8')] accepts. *)
Definition encodable (c : N) : bool :=
  (c <? 0xD800) || ((0xDFFF <? c) && (c <? 0x110000)).

(** A digit or a letter from [a] to [f]. *)
Definition is_hex_lower (c : N) : bool :=
  ((48 <=? c) && (c <=? 57)) || ((97 <=? c) && (c <=? 102)).

(** A directory name with a surrogate in it, as [os.walk] gives for a
    byte that is not UTF-8. *)
Definition tree_surrogate : list node :=
  [Dir (lit "caf" ++ 56553 :: lit "-1.0.dist-info") []].

(** No whitespace character in a string, in the name and version of a
    pair. *)
Definition no_space (s : str) : bool := forallb (fun c => negb (is_space c)) s.

Definition pair_no_space (p : str * str) : bool :=
  no_space (fst p) && no_space (snd p).

(** A world with the zip file of [requests] under [/tmp]. *)
Definition world_with_zip : world :=
  with_zips (insert (lit "/tmp/requests.zip")
               {| a_base_dir := lit "python"; a_content := tree_requests |})
            empty_world.

(** The test and the update of [write_text], by name. *)
Definition has_dir (name : str) (children : list node) : bool :=
  existsb (fun n => match n with Dir m _ => str_eqb m name | _ => false end)
          children.

Definition with_file (name text : str) (bytes : list N) (children : list node)
  : list node :=
  List.filter (fun n => negb (same_name name n)) children
  ++ [File name (N.of_nat (length bytes)) (Ok text)].

Section Tail.
Context {L : Type}.
(** [main] from the ledger check on. *)
Definition publish_or_skip (e : env) (package : str) (version : value)
    (license_info : L) (requirements_txt requirements_hash zip_file : str)
  : M (output L) :=
  hash_found ← check_requirement_hash e package requirements_hash;
  (if negb hash_found then
     upload_to_s3 e zip_file package (package ++ lit ".zip");;
     put_requirements_hash e package version requirements_txt requirements_hash;;
     getsize zip_file
   else mret tt);;
  mret {| zip_file := package ++ lit ".zip";
          package := package;
          version := version;
          requirements_hash := requirements_hash;
          license_info := license_info |}.
End Tail.

(** An event without [license_info]. *)
Definition event_no_license : event string :=
  {| ev_package := Some (lit "requests");
     ev_version := Some (VStr (lit "2.31.0"));
     ev_license_info := None |}.

(** A tree with a directory named [requirements.txt]. *)
Definition tree_requirements_dir : list node :=
  [Dir (lit "requests-2.31.0.dist-info") []; Dir (lit "requirements.txt") []].

(** Collaborators by their outcomes: the directory [pip install] leaves
    and the four service failures. *)
Definition env_of (tree : option (list node)) (query upload listing put : bool) : env :=
  {| pip_install := fun _ _ => {| returncode := 0; target_dir := tree |};
     now_isoformat := lit "2024-01-01T00:00:00";
     query_error := query; upload_error := upload;
     list_error := listing; put_error := put |}.

(** A world whose [/tmp/python] holds [children]. *)
Definition world_with_dir (children : list node) : world :=
  with_dirs (insert tmp_python children) empty_world.

(** A [PKG-INFO] with both headers and, after the blank line that ends the
    headers, a line of the description that starts with [Version:]. *)
Definition pkg_info_changes : str :=
  lit "Metadata-Version: 1.1" ++ LF :: lit "Name: bar" ++ LF
  :: lit "Version: 4.5.6" ++ LF :: LF :: lit "Version: see CHANGES" ++ [LF].

Definition tree_changes : list node :=
  [Dir (lit "bar.egg-info") [text_file (lit "PKG-INFO") pkg_info_changes]].

(** ** Further definitions for the sensitivity of the fingerprint *)

(** No white space at the start of a string. *)
Definition head_no_space (s : str) : bool :=
  match s with
  | c :: _ => negb (is_space c)
  | [] => true
  end.

(** A pair whose entry [strip()] leaves alone wherever it stands in the
    manifest: no line feed in the name or the version, no white space at
    the start of the name or at the end of the version. *)
Definition pair_strip_safe (p : str * str) : bool :=
  pair_no_lf p && head_no_space (fst p) && head_no_space (reverse (snd p)).

(** [tree_space] without the space. *)
Definition tree_foo : list node := [Dir (lit "foo-1.0.dist-info") []].

(** A version string for each number, of the digits [0] and [1]: [0] for
    zero, else [1] followed by the binary digits below the leading one,
    lowest first. *)
Fixpoint pos_bits (p : positive) : str :=
  match p with
  | xH => []
  | xO q => 48 :: pos_bits q
  | xI q => 49 :: pos_bits q
  end.

Definition version_of (n : N) : str :=
  match n with
  | N0 => [48]
  | Npos p => 49 :: pos_bits p
  end.

(** The installed tree of package [n] alone, at version [v]. *)
Definition tree_version (v : str) : list node :=
  [Dir (lit "n-" ++ v ++ lit ".dist-info") []].

(** The number that a list of bytes writes, lowest byte first. *)
Fixpoint le_val (bs : list N) : N :=
  match bs with
  | [] => 0
  | b :: rest => b + 256 * le_val rest
  end.

(** * Properties *)

(** ** The order of [str] and [sorted] *)

Lemma str_leb_total (s t : str) : str_leb s t = true ∨ str_leb t s = true.
Proof.
  revert t. induction s as [|a s IH]; intros [|b t]; simpl; auto.
  destruct (N.ltb_spec a b), (N.ltb_spec b a), (N.eqb_spec a b), (N.eqb_spec b a);
    auto; lia.
Qed.

Lemma str_leb_trans (s t u : str) :
  str_leb s t = true → str_leb t u = true → str_leb s u = true.
Proof.
  revert t u. induction s as [|a s IH]; intros [|b t] [|c u]; simpl; try done.
  destruct (N.ltb_spec a b), (N.ltb_spec b c), (N.ltb_spec a c),
    (N.eqb_spec a b), (N.eqb_spec b c), (N.eqb_spec a c);
    try done; try lia; eauto.
Qed.

Lemma str_leb_antisym (s t : str) :
  str_leb s t = true → str_leb t s = true → s = t.
Proof.
  revert t. induction s as [|a s IH]; intros [|b t]; simpl; try done.
  destruct (N.ltb_spec a b), (N.ltb_spec b a), (N.eqb_spec a b), (N.eqb_spec b a);
    try done; try lia.
  intros ? ?. subst. f_equal. auto.
Qed.

Global Instance str_le_total : Total str_le.
Proof. intros s t. apply str_leb_total. Qed.
Global Instance str_le_trans : Transitive str_le.
Proof. intros s t u. apply str_leb_trans. Qed.
Global Instance str_le_antisym : AntiSymm (=) str_le.
Proof. intros s t. apply str_leb_antisym. Qed.

Lemma sorted_Permutation (l : list str) : sorted l ≡ₚ l.
Proof. apply merge_sort_Permutation. Qed.

Lemma sorted_StronglySorted (l : list str) : StronglySorted str_le (sorted l).
Proof. apply StronglySorted_merge_sort; apply _. Qed.

(** [sorted] is a function of the multiset of its argument. *)
Lemma sorted_perm_eq (l1 l2 : list str) : l1 ≡ₚ l2 → sorted l1 = sorted l2.
Proof.
  intros H. apply (StronglySorted_unique str_le);
    auto using sorted_StronglySorted.
  by rewrite !sorted_Permutation.
Qed.

(** ** The walk collects one entry per discovered pair *)

Section CollectEmit.
Context {B : Type} (emit : str -> str -> B).
Let pair (name version : str) : str * str := (name, version).
Let f (p : str * str) : B := emit (fst p) (snd p).

Lemma append_found_map acc found :
  append_found emit (map f acc) found = map f (append_found pair acc found).
Proof. destruct found as [[n v]|]; simpl; [|done]. by rewrite map_app. Qed.

Lemma scan_dirs_map dirs acc :
  for_each (scan_dir emit) (map f acc) dirs
  = map f <$> for_each (scan_dir pair) acc dirs.
Proof.
  revert acc. induction dirs as [|d dirs IH]; intros acc; simpl; [done|].
  unfold scan_dir at 1 3. destruct (dist_info d) as [found|e]; simpl; [|done].
  rewrite append_found_map. apply IH.
Qed.

Lemma scan_files_map fs subdir files acc :
  for_each (scan_file emit fs subdir) (map f acc) files
  = map f <$> for_each (scan_file pair fs subdir) acc files.
Proof.
  revert acc. induction files as [|x files IH]; intros acc; simpl; [done|].
  unfold scan_file at 1 3.
  destruct (str_eqb x (lit "PKG-INFO") && _); simpl; [|apply IH].
  destruct (open_text fs _) as [text|e]; simpl; [|done].
  rewrite append_found_map. apply IH.
Qed.

Lemma scan_triples_map fs ts acc :
  for_each (scan_triple emit fs) (map f acc) ts
  = map f <$> for_each (scan_triple pair fs) acc ts.
Proof.
  revert acc. induction ts as [|[[subdir dirs] files] ts IH]; intros acc;
    simpl; [done|].
  rewrite scan_dirs_map.
  destruct (for_each (scan_dir pair) acc dirs) as [acc1|e]; simpl; [|done].
  rewrite scan_files_map.
  destruct (for_each (scan_file pair fs subdir) acc1 files) as [acc2|e];
    simpl; [|done].
  apply IH.
Qed.
End CollectEmit.

Lemma collect_requirements_discovered fs path :
  collect_requirements fs path = map entry_of <$> discovered fs path.
Proof.
  unfold collect_requirements, discovered, collect.
  apply (scan_triples_map entry fs (os_walk fs path) []).
Qed.

Lemma freeze_requirements_discovered fs package path version pairs :
  discovered fs path = Ok pairs →
  freeze_requirements fs package path version
  = manifest_of (map entry_of pairs).
Proof.
  intros H. unfold freeze_requirements.
  by rewrite collect_requirements_discovered, H.
Qed.

(** C1. The manifest text and the fingerprint depend only on the multiset
    of discovered [(name, version)] pairs: two walks that discover the same
    pairs, in whatever order, give the same result of
    [freeze_requirements]. *)
Theorem freeze_requirements_order_independent
    (fs1 fs2 : filesystem) (package path1 path2 : str) (version : value)
    (pairs1 pairs2 : list (str * str)) :
  discovered fs1 path1 = Ok pairs1 →
  discovered fs2 path2 = Ok pairs2 →
  pairs1 ≡ₚ pairs2 →
  freeze_requirements fs1 package path1 version
  = freeze_requirements fs2 package path2 version.
Proof.
  intros H1 H2 Hperm.
  rewrite (freeze_requirements_discovered _ _ _ _ _ H1).
  rewrite (freeze_requirements_discovered _ _ _ _ _ H2).
  unfold manifest_of, joined.
  by rewrite (sorted_perm_eq (map entry_of pairs1) (map entry_of pairs2))
    by (by apply Permutation_map).
Qed.

Lemma freeze_requirements_order_independent_witness :
  freeze_requirements (fs_of tmp_python (Some tree_requests))
    (lit "requests") tmp_python (VStr (lit "2.31.0"))
  = freeze_requirements (fs_of tmp_python (Some tree_requests_rev))
      (lit "requests") tmp_python (VStr (lit "2.31.0")).
Proof.
  apply (freeze_requirements_order_independent _ _ _ _ _ _
           [(lit "requests", lit "2.31.0"); (lit "urllib3", lit "2.0.0")]
           [(lit "urllib3", lit "2.0.0"); (lit "requests", lit "2.31.0")]).
  - vm_compute. reflexivity.
  - vm_compute. reflexivity.
  - apply perm_swap.
Defined.

(** C10. The [version] argument (and the [package] argument) of
    [freeze_requirements] has no influence on its result. *)
Theorem freeze_requirements_ignores_version
    (fs : filesystem) (package1 package2 path : str) (version1 version2 : value) :
  freeze_requirements fs package1 path version1
  = freeze_requirements fs package2 path version2.
Proof. reflexivity. Qed.

(** ** Multiplicity of entries *)

Lemma manifest_entries_discovered fs path pairs :
  discovered fs path = Ok pairs →
  manifest_entries fs path = Ok (sorted (map entry_of pairs)).
Proof.
  intros H. unfold manifest_entries.
  by rewrite collect_requirements_discovered, H.
Qed.

Lemma tree_twice_entries :
  manifest_entries (fs_of tmp_python (Some tree_twice)) tmp_python
  = Ok [lit "foo==1.0"; lit "foo==1.0"].
Proof. vm_compute. reflexivity. Qed.

(** C4, as stated, fails: [foo 1.0] discovered through a [.dist-info]
    directory and through a [PKG-INFO] is listed twice in the manifest. *)
Lemma manifest_duplicate_counterexample :
  discovered (fs_of tmp_python (Some tree_twice)) tmp_python
    = Ok [(lit "foo", lit "1.0"); (lit "foo", lit "1.0")]
  ∧ (∃ entries,
        manifest_entries (fs_of tmp_python (Some tree_twice)) tmp_python
          = Ok entries
        ∧ ¬ NoDup entries)
  ∧ fst <$> freeze_requirements (fs_of tmp_python (Some tree_twice))
              (lit "foo") tmp_python (VStr (lit "1.0"))
    = Ok (lit "foo==1.0" ++ LF :: lit "foo==1.0").
Proof.
  split; [vm_compute; reflexivity|]. split; [|vm_compute; reflexivity].
  eexists. split; [apply tree_twice_entries|].
  intros H. apply NoDup_cons in H as [H _]. apply H. by left.
Qed.

(** C4, amended. The entry sequence of the manifest is a permutation of
    the entries of the discovered pairs: nothing is merged, a pair found
    [k] times is listed [k] times, and the manifest is free of duplicates
    exactly when no entry was discovered twice. *)
Theorem manifest_entries_keep_multiplicity
    (fs : filesystem) (package path : str) (version : value)
    (pairs : list (str * str)) :
  discovered fs path = Ok pairs →
  ∃ entries,
    manifest_entries fs path = Ok entries
    ∧ entries ≡ₚ map entry_of pairs
    ∧ length entries = length pairs
    ∧ (NoDup entries ↔ NoDup (map entry_of pairs))
    ∧ fst <$> freeze_requirements fs package path version
      = fst <$> manifest_of (map entry_of pairs)
    ∧ (∀ txt h, manifest_of (map entry_of pairs) = Ok (txt, h) →
                txt = py_strip (py_join LF entries)).
Proof.
  intros H. exists (sorted (map entry_of pairs)).
  split; [by apply manifest_entries_discovered|].
  split; [apply sorted_Permutation|].
  split; [by rewrite sorted_Permutation, length_map|].
  split; [by rewrite sorted_Permutation|].
  split; [by rewrite (freeze_requirements_discovered _ _ _ _ _ H)|].
  intros txt h. unfold manifest_of.
  destruct (sha256_hex _); [|done]. by intros [= <- _].
Qed.

Lemma manifest_entries_keep_multiplicity_witness :
  ∃ entries,
    manifest_entries (fs_of tmp_python (Some tree_twice)) tmp_python = Ok entries
    ∧ entries ≡ₚ map entry_of [(lit "foo", lit "1.0"); (lit "foo", lit "1.0")].
Proof.
  destruct (manifest_entries_keep_multiplicity
              (fs_of tmp_python (Some tree_twice)) (lit "foo") tmp_python
              (VStr (lit "1.0"))
              [(lit "foo", lit "1.0"); (lit "foo", lit "1.0")])
    as (entries & H1 & H2 & _).
  - vm_compute. reflexivity.
  - exists entries. split; assumption.
Defined.

(** ** The manifest text and the digested text *)

(** What [freeze_requirements] returns, in terms of the collected list:
    the text is stripped, the digest is that of the text as joined. *)
Lemma freeze_requirements_returns fs package path version txt h :
  freeze_requirements fs package path version = Ok (txt, h) →
  ∃ requirements,
    collect_requirements fs path = Ok requirements
    ∧ txt = py_strip (py_join LF (sorted requirements))
    ∧ sha256_hex (py_join LF (sorted requirements)) = Some h.
Proof.
  unfold freeze_requirements.
  destruct (collect_requirements fs path) as [rs|e]; simpl; [|done].
  unfold manifest_of. destruct (sha256_hex _) as [h'|] eqn:Hh; [|done].
  intros [= <- <-]. eauto.
Qed.

(** Where [strip()] leaves the joined text as it is, the fingerprint is the
    digest of the returned text. *)
Lemma fingerprint_of_returned_text fs package path version txt h :
  freeze_requirements fs package path version = Ok (txt, h) →
  (∀ requirements, collect_requirements fs path = Ok requirements →
     py_strip (py_join LF (sorted requirements))
     = py_join LF (sorted requirements)) →
  sha256_hex txt = Some h.
Proof.
  intros (rs & Hrs & -> & Hh)%freeze_requirements_returns Hstrip.
  by rewrite (Hstrip rs Hrs).
Qed.

(** C5 at the tree [tree_space]: the entry is [foo==1.0 ] with a trailing
    space, the returned text is [foo==1.0], and the returned fingerprint is
    the digest of the text with the space, not of the returned text. *)
Theorem fingerprint_taken_before_strip :
  freeze_requirements (fs_of tmp_python (Some tree_space))
    (lit "foo") tmp_python (VStr (lit "1.0"))
  = Ok (lit "foo==1.0",
        lit "d521cdcdbe8e0909802329ccb2c32e720cd5cae177a5d220b5914d6a63e011e7")
  ∧ sha256_hex (lit "foo==1.0 ")
    = Some (lit "d521cdcdbe8e0909802329ccb2c32e720cd5cae177a5d220b5914d6a63e011e7")
  ∧ sha256_hex (lit "foo==1.0")
    = Some (lit "8475d84fa3559abc70bd944ca6dbc62daea9a54c9ff1b71fb82a57e062014536")
  ∧ (∀ txt h,
       freeze_requirements (fs_of tmp_python (Some tree_space))
         (lit "foo") tmp_python (VStr (lit "1.0")) = Ok (txt, h) →
       sha256_hex txt ≠ Some h).
Proof.
  assert (H : freeze_requirements (fs_of tmp_python (Some tree_space))
                (lit "foo") tmp_python (VStr (lit "1.0"))
              = Ok (lit "foo==1.0",
                    lit "d521cdcdbe8e0909802329ccb2c32e720cd5cae177a5d220b5914d6a63e011e7"))
    by (vm_compute; reflexivity).
  split; [exact H|]. split; [vm_compute; reflexivity|].
  split; [vm_compute; reflexivity|].
  intros txt h. rewrite H. intros [= <- <-]. vm_compute. discriminate.
Qed.

(** ** Parsing of the metadata markers *)

Lemma py_split_app sep s rest :
  sep ∉ s → py_split sep (s ++ sep :: rest) = s :: py_split sep rest.
Proof.
  induction s as [|c s IH]; intros Hs; simpl.
  - by rewrite N.eqb_refl.
  - apply not_elem_of_cons in Hs as [Hc Hs].
    destruct (N.eqb_spec c sep) as [->|_]; [done|]. by rewrite IH.
Qed.

Lemma py_split_none sep s : sep ∉ s → py_split sep s = [s].
Proof.
  induction s as [|c s IH]; intros Hs; simpl; [done|].
  apply not_elem_of_cons in Hs as [Hc Hs].
  destruct (N.eqb_spec c sep) as [->|_]; [done|]. by rewrite IH.
Qed.

Lemma py_last_app n (s suffix : str) :
  length suffix = n → py_last n (s ++ suffix) = suffix.
Proof.
  intros <-. unfold py_last. rewrite length_app.
  replace (length s + length suffix - length suffix)%nat with (length s) by lia.
  apply drop_app_length.
Qed.

Lemma py_but_last_app n (s suffix : str) :
  length suffix = n → py_but_last n (s ++ suffix) = s.
Proof.
  intros <-. unfold py_but_last. rewrite length_app.
  replace (length s + length suffix - length suffix)%nat with (length s) by lia.
  apply take_app_length.
Qed.

Lemma str_eqb_refl (s : str) : str_eqb s s = true.
Proof. unfold str_eqb. by apply bool_decide_eq_true. Qed.

Lemma str_eqb_eq (s t : str) : str_eqb s t = true ↔ s = t.
Proof. unfold str_eqb. apply bool_decide_eq_true. Qed.

(** A directory [name-version[-more].dist-info] gives [(name, version)]. *)
Lemma dist_info_name_version name version more :
  HYPHEN ∉ name → HYPHEN ∉ version →
  more = [] ∨ (∃ m, more = HYPHEN :: m) →
  dist_info (name ++ HYPHEN :: version ++ more ++ lit ".dist-info")
  = Ok (Some (name, version)).
Proof.
  intros Hn Hv Hmore. unfold dist_info.
  replace (name ++ HYPHEN :: version ++ more ++ lit ".dist-info")
    with ((name ++ HYPHEN :: version ++ more) ++ lit ".dist-info")
    by (by rewrite <- ?app_assoc, <- ?app_comm_cons, <- ?app_assoc).
  rewrite py_last_app, py_but_last_app by done.
  rewrite str_eqb_refl, py_split_app by done.
  destruct Hmore as [->|[m ->]].
  - by rewrite app_nil_r, py_split_none.
  - by rewrite py_split_app.
Qed.

Lemma foldl_scan_line lines st :
  foldl scan_line st lines
  = (from_option Some (fst st) (last_header (lit "Version:") lines),
     from_option Some (snd st) (last_header (lit "Name:") lines)).
Proof.
  revert st. induction lines as [|line lines IH]; intros [v n]; simpl; [done|].
  rewrite IH. unfold scan_line, starts_with. simpl.
  f_equal.
  - destruct (last_header (lit "Version:") lines); [done|].
    by destruct (str_eqb _ _).
  - destruct (last_header (lit "Name:") lines); [done|].
    by destruct (str_eqb _ _).
Qed.

(** [pkg_info] gives the last [Name:] and the last [Version:] value when
    both exist and are not empty, and nothing otherwise. *)
Lemma pkg_info_last_headers lines :
  pkg_info lines
  = match last_header (lit "Name:") lines, last_header (lit "Version:") lines with
    | Some (c :: name), Some (d :: version) => Some (c :: name, d :: version)
    | _, _ => None
    end.
Proof.
  unfold pkg_info. rewrite foldl_scan_line. simpl.
  destruct (last_header (lit "Version:") lines) as [[|d v]|],
    (last_header (lit "Name:") lines) as [[|c n]|]; done.
Qed.

Lemma last_header_none prefix lines :
  forallb (fun line => negb (starts_with prefix line)) lines = true →
  last_header prefix lines = None.
Proof.
  induction lines as [|line lines IH]; simpl; [done|].
  intros [Hl Hr]%andb_true_iff. rewrite (IH Hr).
  by destruct (starts_with prefix line).
Qed.

Lemma scan_file_pkg_info fs subdir text requirements :
  py_last 8 subdir = lit "egg-info" →
  open_text fs (subdir ++ lit "/PKG-INFO") = Ok text →
  scan_file entry fs subdir requirements (lit "PKG-INFO")
  = Ok (append_found entry requirements (pkg_info (readlines text))).
Proof.
  intros Hsub Hopen. unfold scan_file.
  rewrite Hsub, !str_eqb_refl. cbn [andb].
  change (subdir ++ lit "/" ++ lit "PKG-INFO") with (subdir ++ lit "/PKG-INFO").
  by rewrite Hopen.
Qed.

(** C7, as stated, fails: a [PKG-INFO] with the lines [Name: bar] and
    [Version: 4.5.6] that does not contribute [bar==4.5.6].  Every line of
    the file is looked at, the description included, and the line
    [Version: see CHANGES] comes last. *)
Lemma manifest_parsing_counterexample :
  lit "Name: bar" ++ [LF] ∈ readlines pkg_info_changes
  ∧ lit "Version: 4.5.6" ++ [LF] ∈ readlines pkg_info_changes
  ∧ scan_file entry (fs_of tmp_python (Some tree_changes))
      (lit "/tmp/python/bar.egg-info") [] (lit "PKG-INFO")
    = Ok [lit "bar==see CHANGES"]
  ∧ freeze_requirements (fs_of tmp_python (Some tree_changes))
      (lit "bar") tmp_python (VStr (lit "4.5.6"))
    = Ok (lit "bar==see CHANGES",
          lit "691a5e0777c623d2676a9d5ddfa74c9d7a63b9ad44abfcf1a513014725d471ad")
  ∧ lit "bar==see CHANGES" ≠ lit "bar==4.5.6".
Proof.
  split_and!.
  - apply (bool_decide_unpack _). vm_compute. exact I.
  - apply (bool_decide_unpack _). vm_compute. exact I.
  - vm_compute. reflexivity.
  - vm_compute. reflexivity.
  - discriminate.
Qed.

(** C7. Parsing of the markers: (1) a directory [name-version.dist-info]
    (more hyphen-separated segments may follow the version) contributes
    [name==version], so [foo-1.2.3.dist-info] contributes [foo==1.2.3];
    (2) a [PKG-INFO] in a directory ending in [egg-info] contributes
    [name==version] for the stripped values of the last line that starts
    with [Name:] and of the last line that starts with [Version:],
    wherever in the file they are, when both values are non-empty; so a
    file whose only such lines are [Name: bar] and [Version: 4.5.6]
    contributes [bar==4.5.6]; (3) a [PKG-INFO] without a line that starts
    with [Name:] or without one that starts with [Version:] contributes
    nothing and raises nothing. *)
Theorem manifest_parsing :
  (∀ name version more requirements,
      HYPHEN ∉ name → HYPHEN ∉ version →
      more = [] ∨ (∃ m, more = HYPHEN :: m) →
      scan_dir entry requirements
        (name ++ HYPHEN :: version ++ more ++ lit ".dist-info")
      = Ok (requirements ++ [name ++ lit "==" ++ version]))
  ∧ scan_dir entry [] (lit "foo-1.2.3.dist-info") = Ok [lit "foo==1.2.3"]
  ∧ (∀ fs subdir text requirements name version,
      py_last 8 subdir = lit "egg-info" →
      open_text fs (subdir ++ lit "/PKG-INFO") = Ok text →
      last_header (lit "Name:") (readlines text) = Some name → name ≠ [] →
      last_header (lit "Version:") (readlines text) = Some version →
      version ≠ [] →
      scan_file entry fs subdir requirements (lit "PKG-INFO")
      = Ok (requirements ++ [name ++ lit "==" ++ version]))
  ∧ (∀ n v,
      py_strip n ≠ [] → py_strip v ≠ [] →
      pkg_info [lit "Name:" ++ n; lit "Version:" ++ v]
      = Some (py_strip n, py_strip v))
  ∧ pkg_info (readlines (lit "Name: bar" ++ LF :: lit "Version: 4.5.6" ++ [LF]))
    = Some (lit "bar", lit "4.5.6")
  ∧ (∀ fs subdir text requirements,
      open_text fs (subdir ++ lit "/PKG-INFO") = Ok text →
      forallb (fun line => negb (starts_with (lit "Name:") line))
              (readlines text) = true
      ∨ forallb (fun line => negb (starts_with (lit "Version:") line))
                (readlines text) = true →
      scan_file entry fs subdir requirements (lit "PKG-INFO") = Ok requirements)
  ∧ freeze_requirements (fs_of tmp_python (Some tree_parsing))
      (lit "foo") tmp_python (VStr (lit "1.2.3"))
    = Ok (lit "bar==4.5.6" ++ LF :: lit "foo==1.2.3",
          lit "31932777ad45fa27e93c807475ff08ff10cc485026b8765fbf579a38b2599d8a").
Proof.
  split_and!.
  - intros name version more rs Hn Hv Hmore. unfold scan_dir.
    by rewrite dist_info_name_version.
  - vm_compute. reflexivity.
  - intros fs subdir text rs name version Hsub Hopen Hn Hn0 Hv Hv0.
    rewrite (scan_file_pkg_info _ _ _ _ Hsub Hopen), pkg_info_last_headers.
    rewrite Hn, Hv. by destruct name, version.
  - intros n v Hn Hv. rewrite pkg_info_last_headers.
    cbn [last_header]. unfold starts_with. cbn [length lit].
    change (take (length (lit "Name:")) (lit "Version:" ++ v)) with (lit "Versi").
    change (take (length (lit "Version:")) (lit "Version:" ++ v)) with (lit "Version:").
    change (take (length (lit "Name:")) (lit "Name:" ++ n)) with (lit "Name:").
    change (drop (length (lit "Name:")) (lit "Name:" ++ n)) with n.
    change (drop (length (lit "Version:")) (lit "Version:" ++ v)) with v.
    rewrite !str_eqb_refl.
    replace (str_eqb (lit "Versi") (lit "Name:")) with false by done.
    replace (str_eqb (take (length (lit "Version:")) (lit "Name:" ++ n))
                     (lit "Version:")) with false.
    + by destruct (py_strip n), (py_strip v).
    + symmetry. unfold str_eqb. apply bool_decide_eq_false.
      intros H. vm_compute in H. destruct n as [|? [|? [|? ?]]]; discriminate.
  - vm_compute. reflexivity.
  - intros fs subdir text rs Hopen Hmiss. unfold scan_file.
    destruct (str_eqb _ _ && str_eqb _ _); [|done].
    change (subdir ++ lit "/" ++ lit "PKG-INFO") with (subdir ++ lit "/PKG-INFO").
    rewrite Hopen. simpl. rewrite pkg_info_last_headers.
    destruct Hmiss as [H|H]; rewrite (last_header_none _ _ H); [done|].
    by destruct (last_header (lit "Name:") (readlines text)) as [[|? ?]|].
  - vm_compute. reflexivity.
Qed.

Lemma manifest_parsing_witness :
  scan_dir entry [] (lit "foo" ++ HYPHEN :: lit "1.2.3" ++ [] ++ lit ".dist-info")
    = Ok ([] ++ [lit "foo" ++ lit "==" ++ lit "1.2.3"])
  ∧ scan_file entry (fs_of tmp_python (Some tree_parsing))
      (lit "/tmp/python/bar.egg-info") [] (lit "PKG-INFO")
    = Ok ([] ++ [lit "bar" ++ lit "==" ++ lit "4.5.6"])
  ∧ scan_file entry (fs_of tmp_python (Some tree_parsing))
      (lit "/tmp/python/baz.egg-info") [] (lit "PKG-INFO")
    = Ok [].
Proof.
  destruct manifest_parsing as (Hdir & _ & Hpkg & _ & _ & Hmiss & _).
  split_and!.
  - apply Hdir; [| |by left];
      apply (bool_decide_unpack _); vm_compute; exact I.
  - apply (Hpkg _ _ (lit "Metadata-Version: 2.1" ++ CR :: LF :: lit "Name: bar"
                     ++ CR :: LF :: lit "Version: 4.5.6" ++ [CR; LF]));
      try (vm_compute; reflexivity); discriminate.
  - apply (Hmiss _ _ (lit "Name: baz" ++ LF :: lit "Summary: none"));
      [vm_compute; reflexivity|]. right. vm_compute. reflexivity.
Defined.

(** ** [encode_utf8] is injective *)

Lemma lor_add (a x k : N) :
  x < 2 ^ k → N.land a (N.ones k) = 0 → N.lor a x = a + x.
Proof.
  intros Hx Ha.
  assert (Hland : N.land a x = 0).
  { rewrite <- (N.mod_small x (2 ^ k)) by done.
    rewrite <- N.land_ones, (N.land_comm x), N.land_assoc, Ha.
    apply N.land_0_l. }
  by rewrite <- N.lxor_lor, N.add_nocarry_lxor.
Qed.

Lemma utf8_char_bytes (c : N) (bs : list N) :
  utf8_char c = Some bs →
  (c < 128 ∧ bs = [c])
  ∨ (128 ≤ c < 2048 ∧ bs = [192 + c / 64; 128 + c mod 64])
  ∨ (2048 ≤ c < 65536
     ∧ bs = [224 + c / 4096; 128 + (c / 64) mod 64; 128 + c mod 64])
  ∨ (65536 ≤ c < 1114112
     ∧ bs = [240 + c / 262144; 128 + (c / 4096) mod 64;
             128 + (c / 64) mod 64; 128 + c mod 64]).
Proof.
  unfold utf8_char.
  assert (Hmid : ∀ x, N.lor 128 (N.land x 63) = 128 + x mod 64).
  { intros x. change 63 with (N.ones 6). rewrite N.land_ones.
    apply (lor_add 128 _ 6); [|done]. apply N.mod_lt. done. }
  rewrite !N.shiftr_div_pow2, !Hmid.
  change (2 ^ 6) with 64. change (2 ^ 12) with 4096. change (2 ^ 18) with 262144.
  destruct (N.ltb_spec c 128); [intros [= <-]; auto|].
  destruct (N.ltb_spec c 2048).
  { intros [= <-]. right. left. split; [done|].
    rewrite (lor_add 192 _ 5); [done| |done].
    change (2 ^ 5) with 32. apply N.Div0.div_lt_upper_bound. lia. }
  assert (Hrest :
    (if c <? 65536
     then Some [N.lor 224 (c / 4096); 128 + (c / 64) mod 64; 128 + c mod 64]
     else if c <? 1114112
          then Some [N.lor 240 (c / 262144); 128 + (c / 4096) mod 64;
                     128 + (c / 64) mod 64; 128 + c mod 64]
          else None) = Some bs →
    (2048 ≤ c < 65536
     ∧ bs = [224 + c / 4096; 128 + (c / 64) mod 64; 128 + c mod 64])
    ∨ (65536 ≤ c < 1114112
       ∧ bs = [240 + c / 262144; 128 + (c / 4096) mod 64;
               128 + (c / 64) mod 64; 128 + c mod 64])).
  { destruct (N.ltb_spec c 65536).
    - intros [= <-]. left. split; [done|].
      rewrite (lor_add 224 _ 4); [done| |done].
      change (2 ^ 4) with 16. apply N.Div0.div_lt_upper_bound. lia.
    - destruct (N.ltb_spec c 1114112); [|done].
      intros [= <-]. right. split; [done|].
      rewrite (lor_add 240 _ 3); [done| |done].
      change (2 ^ 3) with 8. apply N.Div0.div_lt_upper_bound. lia. }
  destruct ((55296 <=? c) && (c <=? 57343)); [done|].
  intros Hbs. right. right. by apply Hrest.
Qed.

(** A code point from its base-64 digits. *)
Lemma base64_digits (c : N) :
  c = 262144 * (c / 262144) + 4096 * ((c / 4096) mod 64)
      + 64 * ((c / 64) mod 64) + c mod 64.
Proof.
  pose proof (N.div_mod' c 64) as H0.
  pose proof (N.div_mod' (c / 64) 64) as H1.
  pose proof (N.div_mod' (c / 4096) 64) as H2.
  replace (c / 64 / 64) with (c / 4096) in H1
    by (by rewrite N.Div0.div_div).
  replace (c / 4096 / 64) with (c / 262144) in H2
    by (by rewrite N.Div0.div_div).
  revert H0 H1 H2.
  generalize (c / 262144), ((c / 4096) mod 64), (c / 4096),
    ((c / 64) mod 64), (c / 64), (c mod 64).
  intros. lia.
Qed.

(** The bytes of a code point in terms of its base-64 digits. *)
Lemma utf8_char_digits (c : N) (bs : list N) :
  utf8_char c = Some bs →
  ∃ d3 d2 d1 d0,
    c = 262144 * d3 + 4096 * d2 + 64 * d1 + d0
    ∧ d2 < 64 ∧ d1 < 64 ∧ d0 < 64
    ∧ ((c < 128 ∧ bs = [c])
       ∨ (128 ≤ c < 2048 ∧ bs = [192 + d1; 128 + d0])
       ∨ (2048 ≤ c < 65536 ∧ bs = [224 + d2; 128 + d1; 128 + d0])
       ∨ (65536 ≤ c < 1114112
          ∧ bs = [240 + d3; 128 + d2; 128 + d1; 128 + d0])).
Proof.
  intros H%utf8_char_bytes.
  exists (c / 262144), ((c / 4096) mod 64), ((c / 64) mod 64), (c mod 64).
  split; [apply base64_digits|].
  split_and!; try (by apply N.mod_lt).
  destruct H as [?|[[? ->]|[[? ->]|?]]]; auto.
  - right. left. split; [done|].
    rewrite (N.mod_small (c / 64)); [done|].
    apply N.Div0.div_lt_upper_bound. lia.
  - right. right. left. split; [done|].
    rewrite (N.mod_small (c / 4096)); [done|].
    apply N.Div0.div_lt_upper_bound. lia.
Qed.

Lemma utf8_char_prefix_inj c1 c2 bs1 bs2 (r1 r2 : list N) :
  utf8_char c1 = Some bs1 → utf8_char c2 = Some bs2 →
  bs1 ++ r1 = bs2 ++ r2 → c1 = c2 ∧ r1 = r2.
Proof.
  intros (a3 & a2 & a1 & a0 & Ha & ? & ? & ? & Hc1)%utf8_char_digits
         (b3 & b2 & b1 & b0 & Hb & ? & ? & ? & Hc2)%utf8_char_digits Heq.
  destruct Hc1 as [[? ->]|[[? ->]|[[? ->]|[? ->]]]],
           Hc2 as [[? ->]|[[? ->]|[[? ->]|[? ->]]]];
    simpl in Heq;
    repeat match goal with
    | H : _ :: _ = _ :: _ |- _ =>
        let E := fresh "E" in injection H as E H
    end;
    (split; [lia|first [done|exfalso; lia]]).
Qed.

Lemma utf8_char_not_nil (c : N) : utf8_char c ≠ Some [].
Proof.
  intros H%utf8_char_bytes.
  by destruct H as [[_ [=]]|[[_ [=]]|[[_ [=]]|[_ [=]]]]].
Qed.

Lemma encode_utf8_inj (s1 s2 : str) (bs : list N) :
  encode_utf8 s1 = Some bs → encode_utf8 s2 = Some bs → s1 = s2.
Proof.
  revert s2 bs. induction s1 as [|c1 s1 IH]; intros [|c2 s2] bs; simpl.
  - done.
  - intros [= <-]. destruct (utf8_char c2) as [b2|] eqn:H2; [|done].
    destruct (encode_utf8 s2); [|done]. intros [= Hnil].
    apply app_eq_nil in Hnil as [-> _]. by apply utf8_char_not_nil in H2.
  - destruct (utf8_char c1) as [b1|] eqn:H1; [|done].
    destruct (encode_utf8 s1); [|done]. intros [= <-] [= Hnil].
    symmetry in Hnil. apply app_eq_nil in Hnil as [-> _].
    by apply utf8_char_not_nil in H1.
  - destruct (utf8_char c1) as [b1|] eqn:H1; [|done].
    destruct (encode_utf8 s1) as [r1|] eqn:Hr1; [|done].
    destruct (utf8_char c2) as [b2|] eqn:H2; [|done].
    destruct (encode_utf8 s2) as [r2|] eqn:Hr2; [|done].
    intros [= <-] [= Heq].
    destruct (utf8_char_prefix_inj _ _ _ _ _ _ H2 H1 Heq) as [-> ->].
    f_equal. by apply (IH s2 r1).
Qed.

(** ** Sensitivity of the digested text *)

Lemma py_split_join (l : list str) :
  l ≠ [] → Forall (fun s => LF ∉ s) l → py_split LF (py_join LF l) = l.
Proof.
  induction l as [|s [|s' l'] IH]; intros Hne Hall; [done| |].
  - simpl. apply py_split_none. by apply Forall_inv in Hall.
  - change (py_join LF (s :: s' :: l')) with (s ++ LF :: py_join LF (s' :: l')).
    apply Forall_cons in Hall as [Hs Hall].
    rewrite py_split_app by done. f_equal. by apply IH.
Qed.

Lemma no_lf_spec (s : str) : no_lf s = true → LF ∉ s.
Proof.
  unfold no_lf. induction s as [|c s IH]; simpl.
  - intros _. apply not_elem_of_nil.
  - intros [Hc Hs]%andb_true_iff. apply not_elem_of_cons. split; [|auto].
    intros <-. by rewrite N.eqb_refl in Hc.
Qed.

Lemma entry_no_lf (p : str * str) : pair_no_lf p = true → LF ∉ entry_of p.
Proof.
  intros [Hn Hv]%andb_true_iff. unfold entry_of, entry.
  rewrite !elem_of_app. intros [H|[H|H]].
  - by apply (no_lf_spec _ Hn).
  - vm_compute in H. repeat (apply elem_of_cons in H as [H|H]; [discriminate|]).
    by apply elem_of_nil in H.
  - by apply (no_lf_spec _ Hv).
Qed.

Lemma perm_same_tail {A : Type} (a b : A) (E : list A) :
  a :: E ≡ₚ b :: E → a = b.
Proof.
  remember (length E) as n eqn:Hn. revert E Hn.
  induction n as [n IH] using lt_wf_ind. intros E Hn Hperm.
  assert (Ha : a ∈ b :: E) by (rewrite <- Hperm; by left).
  apply elem_of_cons in Ha as [Ha|Ha]; [done|].
  apply elem_of_Permutation in Ha as [E' HE'].
  apply (IH (length E') ltac:(rewrite Hn, HE'; simpl; lia) E' eq_refl).
  apply (Permutation_cons_inv (a := a)).
  rewrite HE' in Hperm. rewrite Hperm. apply perm_swap.
Qed.

(** The joined text determines the multiset of entries when no entry
    holds a line feed. *)
Lemma joined_inj (l1 l2 : list str) :
  l1 ≠ [] → l2 ≠ [] →
  Forall (fun s => LF ∉ s) l1 → Forall (fun s => LF ∉ s) l2 →
  joined l1 = joined l2 → l1 ≡ₚ l2.
Proof.
  intros Hn1 Hn2 H1 H2 Heq. unfold joined in Heq.
  assert (Hs : ∀ l : list str, l ≠ [] → sorted l ≠ []).
  { intros l Hl Hnil. apply Hl, Permutation_nil_r.
    by rewrite <- Hnil, sorted_Permutation. }
  rewrite <- (sorted_Permutation l1), <- (sorted_Permutation l2).
  rewrite <- (py_split_join (sorted l1)), <- (py_split_join (sorted l2));
    try (by rewrite sorted_Permutation); auto.
  by rewrite Heq.
Qed.

(** Two lists of pairs that differ in the version of one name, without
    line feeds, are joined to different texts. *)
Lemma joined_differ (name v1 v2 : str) (others pairs1 pairs2 : list (str * str)) :
  pairs1 ≡ₚ (name, v1) :: others →
  pairs2 ≡ₚ (name, v2) :: others →
  v1 ≠ v2 →
  forallb pair_no_lf (pairs1 ++ pairs2) = true →
  joined (map entry_of pairs1) ≠ joined (map entry_of pairs2).
Proof.
  intros Hp1 Hp2 Hv Hlf Heq.
  rewrite forallb_app in Hlf. apply andb_true_iff in Hlf as [Hlf1 Hlf2].
  assert (Hfree : ∀ ps, forallb pair_no_lf ps = true →
                        Forall (fun s => LF ∉ s) (map entry_of ps)).
  { intros ps Hps. apply Forall_map, Forall_forall. intros p Hp.
    apply entry_no_lf. rewrite forallb_forall in Hps.
    by apply Hps, list_elem_of_In. }
  assert (Hne : ∀ ps v, ps ≡ₚ (name, v) :: others → map entry_of ps ≠ []).
  { intros ps v Hps Hnil. apply map_eq_nil in Hnil. subst ps.
    by apply Permutation_nil_cons in Hps. }
  apply joined_inj in Heq; eauto.
  rewrite Hp1, Hp2 in Heq. simpl in Heq.
  apply perm_same_tail in Heq. unfold entry_of, entry in Heq. simpl in Heq.
  by apply app_inv_head in Heq as [= ->].
Qed.

(** ** Running the helpers *)

Lemma bind_run {A B : Type} (m : M A) (k : A → M B) (w : world) :
  (m ≫= k) w
  = match m w with
    | (Ok a, w1) => k a w1
    | (Raise ex, w1) => (Raise ex, w1)
    end.
Proof. reflexivity. Qed.

Ltac run :=
  repeat first
    [ rewrite bind_run
    | progress cbn [called set_dirs set_zips set_table set_bucket
                    get lift raise mret M_ret fst snd] ].

Lemma install_run e pkg dir w :
  ∃ w1, install e pkg dir w = (Ok dir, w1)
    ∧ w_dirs w1 !! dir = target_dir (pip_install e pkg dir)
    ∧ w_table w1 = w_table w ∧ w_bucket w1 = w_bucket w
    ∧ w_calls w1 = w_calls w ++ [PipInstall pkg dir; PipFreeze].
Proof.
  unfold install, delete_dir. rewrite !bind_run. cbn [set_dirs called mret M_ret].
  destruct (target_dir (pip_install e pkg dir)) as [ch|] eqn:Hdir;
    cbn [set_dirs mret M_ret]; eexists; (split; [reflexivity|]); simpl;
    rewrite <- app_assoc; split_and!; try done.
  - apply lookup_insert_eq.
  - apply lookup_delete_eq.
Qed.

Lemma write_text_run dir name text w children :
  w_dirs w !! dir = Some children →
  ∃ r w1, write_text dir name text w = (r, w1)
    ∧ (r = Ok tt ∧ is_Some (w_dirs w1 !! dir)
       ∨ (r = Raise IsADirectoryError ∨ r = Raise UnicodeEncodeError))
    ∧ w_table w1 = w_table w ∧ w_bucket w1 = w_bucket w
    ∧ w_calls w1 = w_calls w.
Proof.
  intros Hdir. unfold write_text. rewrite bind_run. cbn [get]. rewrite Hdir.
  destruct (existsb _ children); [by eexists _, _; split; [done|]; auto|].
  destruct (encode_utf8 text); [|by eexists _, _; split; [done|]; auto].
  eexists _, _. split; [done|]. simpl. split_and!; try done.
  left. split; [done|]. rewrite lookup_insert_eq. eauto.
Qed.

Lemma zip_base_dir : under_tmp (default [] (last (py_split SLASH tmp_python))) = tmp_python.
Proof. vm_compute. reflexivity. Qed.

Lemma zip_arcname : arcname_of (default [] (last (py_split SLASH tmp_python))) = lit "python".
Proof. vm_compute. reflexivity. Qed.

Lemma zip_dir_run pkg w :
  is_Some (w_dirs w !! tmp_python) →
  ∃ w1, zip_dir tmp_python pkg w = (Ok ((lit "/tmp/" ++ pkg) ++ lit ".zip"), w1)
    ∧ is_Some (w_zips w1 !! ((lit "/tmp/" ++ pkg) ++ lit ".zip"))
    ∧ w_table w1 = w_table w ∧ w_bucket w1 = w_bucket w
    ∧ w_calls w1 = w_calls w.
Proof.
  intros [children Hdir]. unfold zip_dir. run.
  rewrite zip_base_dir. cbn [w_dirs with_zips]. rewrite Hdir. run.
  eexists. split; [done|]. simpl. rewrite lookup_insert_eq. eauto.
Qed.

Lemma filter_found {A : Type} (f : A → bool) (l : list A) :
  (if (0 <? length (List.filter f l))%nat then true else false) = existsb f l.
Proof.
  induction l as [|x l IH]; simpl; [done|].
  destruct (f x); simpl; [done|]. apply IH.
Qed.

Lemma check_requirement_hash_run e pkg h w :
  check_requirement_hash e pkg h w
  = (if query_error e then Raise ClientError
     else Ok (in_ledger pkg h (w_table w)),
     with_call (DynamoQuery pkg h) w).
Proof.
  unfold check_requirement_hash. rewrite bind_run. cbn [called].
  destruct (query_error e); [done|].
  rewrite bind_run. cbn [get mret M_ret]. by rewrite filter_found.
Qed.

Lemma starts_with_app (p s : str) : starts_with p (p ++ s) = true.
Proof. unfold starts_with. by rewrite take_app_length, str_eqb_refl. Qed.

Lemma upload_to_s3_run e z pkg w :
  is_Some (w_zips w !! z) →
  ∃ r w1, upload_to_s3 e z pkg (pkg ++ lit ".zip") w = (r, w1)
    ∧ w_zips w1 = w_zips w ∧ w_table w1 = w_table w
    ∧ (upload_error e = true ∧ r = Raise S3UploadFailedError
       ∧ w_bucket w1 = w_bucket w
       ∧ w_calls w1 = w_calls w ++ [S3Upload (pkg ++ lit ".zip") false]
       ∨ upload_error e = false
       ∧ uploaded pkg w w1
       ∧ w_calls w1 = w_calls w ++ [S3Upload (pkg ++ lit ".zip") true; S3List pkg]
       ∧ (list_error e = true ∧ r = Raise ClientError
          ∨ list_error e = false ∧ r = Ok (pkg ++ lit ".zip"))).
Proof.
  intros [body Hz]. unfold upload_to_s3. run. rewrite Hz. run.
  destruct (upload_error e) eqn:Hup; run.
  - eexists _, _. split; [done|]. simpl. split_and!; try done. by left.
  - destruct (list_error e) eqn:Hlist; run.
    + eexists _, _. split; [done|]. simpl. split_and!; try done.
      right. split_and!; try done; [by eexists|by rewrite <- app_assoc|by left].
    + cbn [w_bucket with_bucket with_call].
      assert (Hkey : existsb (starts_with pkg)
                (map fst (map_to_list (<[pkg ++ lit ".zip":=body]> (w_bucket w))))
              = true).
      { apply existsb_exists. exists (pkg ++ lit ".zip").
        split; [|apply starts_with_app].
        apply list_elem_of_In, list_elem_of_fmap. exists (pkg ++ lit ".zip", body).
        split; [done|]. apply elem_of_map_to_list, lookup_insert_eq. }
      rewrite Hkey. run.
      eexists _, _. split; [done|]. simpl. split_and!; try done.
      right. split_and!; try done; [by eexists|by rewrite <- app_assoc|by right].
Qed.

Lemma put_requirements_hash_run e pkg ver txt h w :
  put_requirements_hash e pkg ver txt h w
  = if put_error e
    then (Raise (SystemExit 1), with_call (DynamoPutItem (new_item e pkg ver txt h) false) w)
    else (Ok tt, with_table (put_item (new_item e pkg ver txt h))
                   (with_call (DynamoPutItem (new_item e pkg ver txt h) true) w)).
Proof. unfold put_requirements_hash. by destruct (put_error e). Qed.

Lemma getsize_run z w : is_Some (w_zips w !! z) → getsize z w = (Ok tt, w).
Proof. intros [body Hz]. unfold getsize. rewrite bind_run. cbn [get]. by rewrite Hz. Qed.

Lemma dir_size_run path w :
  dir_size path w
  = (match w_dirs w !! path with
     | Some children =>
         Ok (foldl (fun total n => total + node_size n) 0 children)
     | None => Raise FileNotFoundError
     end, w).
Proof. unfold dir_size. run. by destruct (w_dirs w !! path). Qed.

Lemma main_sound {L : Type} (e : env) (ev : event L) (w : world) :
  main_run e ev w (fst (main e ev w)) (snd (main e ev w)).
Proof.
  unfold main.
  destruct ev as [[pkg|] [ver|] [lic|]]; cbn [subscript ev_package ev_version ev_license_info];
    run; try (apply run_key_error; simpl; auto; fail).
  apply (run_event e _ w pkg ver lic); try done.
  change (lit "/tmp/python") with tmp_python.
  destruct (install_run e pkg tmp_python w) as (w1 & Hrun & Hdir & Ht1 & Hb1 & Hc1).
  rewrite Hrun. run. rewrite dir_size_run. fold (installed e pkg) in Hdir.
  destruct (installed e pkg) as [children|] eqn:Hinst; rewrite Hdir; run.
  2: { by apply run_no_directory. }
  unfold freeze_requirements_here. run. rewrite Hdir.
  rewrite <- Hinst. fold (frozen e pkg ver).
  assert (Hpip : w_calls w1 = w_calls w ++ pip_calls pkg) by done.
  destruct (frozen e pkg ver) as [[txt h]|ex] eqn:Hfr.
  2: { by eapply run_freeze_raises. }
  run.
  destruct (write_text_run tmp_python (lit "requirements.txt") txt w1 children Hdir)
    as (r2 & w2 & Hrun2 & Hcase & Ht2 & Hb2 & Hc2).
  rewrite Hrun2.
  destruct Hcase as [[-> Hsome]|Hex].
  2: { destruct Hex as [-> | ->]; run;
       (eapply run_write_raises; eauto; [split|]; congruence). }
  run.
  destruct (zip_dir_run pkg w2 Hsome) as (w3 & Hrun3 & Hz3 & Ht3 & Hb3 & Hc3).
  rewrite Hrun3. run. rewrite check_requirement_hash_run.
  assert (Ht : w_table w3 = w_table w) by congruence.
  assert (Hb : w_bucket w3 = w_bucket w) by congruence.
  assert (Hc : w_calls w3 = w_calls w ++ pip_calls pkg) by congruence.
  destruct (query_error e) eqn:Hq; run.
  { eapply run_query_raises; eauto; [split; simpl; congruence|].
    simpl. by rewrite Hc, <- app_assoc. }
  rewrite Ht.
  destruct (in_ledger pkg h (w_table w)) eqn:Hin; cbn [negb]; run.
  { eapply run_skipped; eauto; [split; simpl; congruence|].
    simpl. by rewrite Hc, <- app_assoc. }
  destruct (upload_to_s3_run e ((lit "/tmp/" ++ pkg) ++ lit ".zip") pkg
              (with_call (DynamoQuery pkg h) w3) Hz3)
    as (r4 & w4 & Hrun4 & Hz4 & Ht4 & Hcase).
  rewrite Hrun4. cbn [w_table w_bucket w_calls w_zips with_call] in Hz4, Ht4, Hcase.
  destruct Hcase as [(Hup & -> & Hb4 & Hc4)|(Hup & Hb4 & Hc4 & Hcase)]; run.
  { eapply run_upload_raises; eauto; [split; congruence|].
    by rewrite Hc4, Hc, <- !app_assoc. }
  assert (Hb' : uploaded pkg w w4).
  { destruct Hb4 as [body Hb4]. exists body.
    by rewrite Hb4; cbn [w_bucket with_call]; rewrite Hb. }
  destruct Hcase as [[Hl ->]|[Hl ->]]; run.
  { eapply run_list_raises; eauto; [congruence|].
    by rewrite Hc4, Hc, <- !app_assoc. }
  rewrite put_requirements_hash_run.
  destruct (put_error e) eqn:Hput; run.
  { eapply run_put_raises; eauto; [simpl; congruence|].
    simpl. by rewrite Hc4, Hc, <- !app_assoc. }
  rewrite getsize_run by (simpl; by rewrite Hz4).
  run.
  eapply run_published; eauto.
  - simpl. congruence.
  - simpl. by rewrite Hc4, Hc, <- !app_assoc.
Qed.

(** ** The runs of [main] *)

Lemma main_run_of {L : Type} (e : env) (ev : event L) (w w' : world) r :
  main e ev w = (r, w') → main_run e ev w r w'.
Proof. intros H. pose proof (main_sound e ev w) as Hs. by rewrite H in Hs. Qed.

Lemma in_ledger_spec pkg h table :
  in_ledger pkg h table = true
  ↔ ∃ it, it ∈ table ∧ i_package it = pkg ∧ i_requirements_hash it = h.
Proof.
  unfold in_ledger. rewrite existsb_exists. split.
  - intros (it & Hin & [Hp Hh]%andb_true_iff). exists it.
    by rewrite list_elem_of_In, <- !str_eqb_eq.
  - intros (it & Hin & Hp & Hh). exists it. split; [by apply list_elem_of_In|].
    unfold key_matches. by rewrite Hp, Hh, !str_eqb_refl.
Qed.

Ltac same_frozen :=
  repeat match goal with
  | H1 : frozen ?e ?p ?v = Ok (?t1, ?h1),
    H2 : frozen ?e ?p ?v = Ok (?t2, ?h2) |- _ =>
      assert (t2 = t1 ∧ h2 = h1) as [-> ->] by (split; congruence); clear H2
  end.

(** A run whose fingerprint is in the ledger ends after the query at the
    latest, with both stores as they were. *)
Lemma run_from_in_ledger {L : Type} e w pkg ver (lic : L) r w' txt h :
  run_from e w pkg ver lic r w' →
  frozen e pkg ver = Ok (txt, h) →
  in_ledger pkg h (w_table w) = true →
  stores_kept w w'
  ∧ (w_calls w' = w_calls w ++ pip_calls pkg
     ∨ w_calls w' = w_calls w ++ pip_calls pkg ++ [DynamoQuery pkg h]).
Proof.
  intros Hrun Hfr Hin.
  destruct Hrun; same_frozen; try congruence; auto.
Qed.

Lemma local_calls pkg h c :
  c ∈ pip_calls pkg ++ [DynamoQuery pkg h] →
  is_upload c = false ∧ is_put_item c = false.
Proof.
  unfold pip_calls. simpl. rewrite !elem_of_cons, elem_of_nil.
  by intros [->|[->|[->|[]]]].
Qed.

(** C2. In a run whose fingerprint is already in the ledger under the
    package, nothing is uploaded and no ledger record is written: both
    stores are as before and the trace holds no upload and no [put_item];
    and [check_requirement_hash], when the query is answered, returns
    [True] exactly when the table holds an item with that package and
    that hash. *)
Theorem dedup_idempotence {L : Type} (e : env) (ev : event L) (w : world) :
  (∀ pkg ver txt h r w',
      main e ev w = (r, w') →
      ev_package ev = Some pkg → ev_version ev = Some ver →
      frozen e pkg ver = Ok (txt, h) →
      (∃ it, it ∈ w_table w ∧ i_package it = pkg ∧ i_requirements_hash it = h) →
      w_table w' = w_table w ∧ w_bucket w' = w_bucket w
      ∧ ∃ new, w_calls w' = w_calls w ++ new
               ∧ ∀ c, c ∈ new → is_upload c = false ∧ is_put_item c = false)
  ∧ (∀ pkg h,
      query_error e = false →
      ∃ found, fst (check_requirement_hash e pkg h w) = Ok found
        ∧ (found = true
           ↔ ∃ it, it ∈ w_table w ∧ i_package it = pkg
                   ∧ i_requirements_hash it = h)).
Proof.
  split.
  - intros pkg ver txt h r w' Hmain Hpkg Hver Hfr Hrec%in_ledger_spec.
    apply main_run_of in Hmain.
    destruct Hmain as [Hnone|pkg' ver' lic r w' Hpkg' Hver' Hlic Hrun].
    { split_and!; [done|done|]. exists []. rewrite app_nil_r.
      split; [done|]. by intros c ?%elem_of_nil. }
    assert (pkg' = pkg) as -> by congruence.
    assert (ver' = ver) as -> by congruence.
    destruct (run_from_in_ledger _ _ _ _ _ _ _ _ _ Hrun Hfr Hrec)
      as [[Ht Hb] Hcalls].
    split_and!; [done|done|].
    destruct Hcalls as [Hc|Hc]; eexists; (split; [exact Hc|]);
      intros c Hin; apply (local_calls pkg h); [|done].
    apply elem_of_app. by left.
  - intros pkg h Hq. rewrite check_requirement_hash_run, Hq. simpl.
    eexists. split; [done|]. apply in_ledger_spec.
Qed.

Lemma dedup_idempotence_witness :
  w_table (snd (main env_ok event_requests world_published))
  = w_table world_published
  ∧ w_bucket (snd (main env_ok event_requests world_published))
    = w_bucket world_published.
Proof.
  destruct (dedup_idempotence env_ok event_requests world_published) as [H _].
  destruct (H (lit "requests") (VStr (lit "2.31.0"))
              (lit "requests==2.31.0" ++ LF :: lit "urllib3==2.0.0") hash_requests
              (fst (main env_ok event_requests world_published))
              (snd (main env_ok event_requests world_published)))
    as (Ht & Hb & _).
  - by destruct (main env_ok event_requests world_published).
  - reflexivity.
  - reflexivity.
  - vm_compute. reflexivity.
  - exists (new_item env_ok (lit "requests") (VStr (lit "2.31.0"))
              (lit "requests==2.31.0" ++ LF :: lit "urllib3==2.0.0") hash_requests).
    split; [|done]. vm_compute. left.
  - by split.
Defined.

(** C3, as stated, fails: [pip install] exits with status 1 and leaves a
    directory; the run goes on, uploads and writes the ledger record. *)
Lemma installer_failure_counterexample :
  returncode (pip_install env_pip_fails_with_dir (lit "requests") tmp_python) = 1%Z
  ∧ fst (main env_pip_fails_with_dir event_requests empty_world)
    = Ok (result_of (lit "requests") (VStr (lit "2.31.0")) hash_requests "MIT"%string)
  ∧ w_calls (snd (main env_pip_fails_with_dir event_requests empty_world))
    = [PipInstall (lit "requests") tmp_python; PipFreeze;
       DynamoQuery (lit "requests") hash_requests;
       S3Upload (lit "requests.zip") true; S3List (lit "requests");
       DynamoPutItem
         (new_item env_pip_fails_with_dir (lit "requests") (VStr (lit "2.31.0"))
            (lit "requests==2.31.0" ++ LF :: lit "urllib3==2.0.0") hash_requests)
         true]
  ∧ w_table (snd (main env_pip_fails_with_dir event_requests empty_world))
    = [new_item env_pip_fails_with_dir (lit "requests") (VStr (lit "2.31.0"))
         (lit "requests==2.31.0" ++ LF :: lit "urllib3==2.0.0") hash_requests]
  ∧ is_Some (w_bucket (snd (main env_pip_fails_with_dir event_requests empty_world))
             !! lit "requests.zip").
Proof.
  split_and!; try (vm_compute; reflexivity).
  vm_compute. eauto.
Qed.

(** C3, amended. When the installer fails and leaves no target directory,
    the run ends in [FileNotFoundError] at [dir_size], before any upload
    or ledger write; the exit status itself is not looked at. *)
Theorem installer_failure_without_directory {L : Type}
    (e : env) (ev : event L) (w : world) (pkg : str) (ver : value) (lic : L) :
  ev_package ev = Some pkg →
  ev_version ev = Some ver →
  ev_license_info ev = Some lic →
  returncode (pip_install e pkg tmp_python) ≠ 0%Z →
  target_dir (pip_install e pkg tmp_python) = None →
  fst (main e ev w) = Raise FileNotFoundError
  ∧ w_table (snd (main e ev w)) = w_table w
  ∧ w_bucket (snd (main e ev w)) = w_bucket w
  ∧ w_calls (snd (main e ev w)) = w_calls w ++ [PipInstall pkg tmp_python; PipFreeze].
Proof.
  intros Hpkg Hver Hlic _ Hnone.
  destruct (main_sound e ev w) as [Hmiss|pkg' ver' lic' r w' Hpkg' Hver' Hlic' Hrun].
  { destruct Hmiss as [?|[?|?]]; congruence. }
  assert (pkg' = pkg) as -> by congruence.
  fold (installed e pkg) in Hnone.
  destruct Hrun as [w' ? [] ?| | | | | | | |]; try congruence.
  by split_and!.
Qed.

Lemma installer_failure_without_directory_witness :
  fst (main env_pip_fails event_requests empty_world) = Raise FileNotFoundError
  ∧ w_table (snd (main env_pip_fails event_requests empty_world)) = []
  ∧ w_bucket (snd (main env_pip_fails event_requests empty_world)) = ∅
  ∧ w_calls (snd (main env_pip_fails event_requests empty_world))
    = [] ++ [PipInstall (lit "requests") tmp_python; PipFreeze].
Proof.
  apply (installer_failure_without_directory env_pip_fails event_requests
           empty_world (lit "requests") (VStr (lit "2.31.0")) "MIT"%string);
    try reflexivity.
  simpl. discriminate.
Defined.

(** ** The order of upload and ledger write *)

Lemma split_at_last {A : Type} (P : A → bool) (l : list A) (x : A) pre y post :
  Forall (fun c => P c = false) l → P y = true →
  l ++ [x] = pre ++ y :: post →
  pre = l ∧ y = x ∧ post = [].
Proof.
  revert pre. induction l as [|c l IH]; intros pre Hl Hy Heq.
  - destruct pre as [|c' pre]; simpl in Heq.
    + by injection Heq as <- <-.
    + injection Heq as _ Heq. by destruct pre.
  - apply Forall_cons in Hl as [Hc Hl].
    destruct pre as [|c' pre]; simpl in Heq.
    + injection Heq as -> _. congruence.
    + injection Heq as <- Heq.
      destruct (IH pre Hl Hy Heq) as (-> & -> & ->). done.
Qed.

Lemma no_put_item (new pre post : list call) it done :
  Forall (fun c => is_put_item c = false) new →
  new ≠ pre ++ DynamoPutItem it done :: post.
Proof.
  intros Hall ->. apply Forall_app in Hall as [_ Hall].
  by apply Forall_cons in Hall as [? _].
Qed.

(** C6. In every run, whatever the collaborators do, a [put_item] on the
    ledger comes after the upload of this run has been done: the call
    before it in the trace is the listing that follows the successful
    [upload_file] of [package.zip], the object is in the bucket, and the
    item written is that of this run's fingerprint. *)
Theorem upload_before_record {L : Type} (e : env) (ev : event L) (w : world) :
  ∃ new,
    w_calls (snd (main e ev w)) = w_calls w ++ new
    ∧ ∀ pre it done post,
        new = pre ++ DynamoPutItem it done :: post →
        ∃ pkg ver txt h,
          ev_package ev = Some pkg ∧ ev_version ev = Some ver
          ∧ frozen e pkg ver = Ok (txt, h)
          ∧ it = new_item e pkg ver txt h
          ∧ post = []
          ∧ S3Upload (pkg ++ lit ".zip") true ∈ pre
          ∧ is_Some (w_bucket (snd (main e ev w)) !! (pkg ++ lit ".zip")).
Proof.
  destruct (main_sound e ev w) as [Hmiss|pkg ver lic r w' Hpkg Hver Hlic Hrun].
  { exists []. split; [by rewrite app_nil_r|].
    intros pre it done post Heq. by destruct pre. }
  assert (Hbucket : uploaded pkg w w' → is_Some (w_bucket w' !! (pkg ++ lit ".zip"))).
  { intros [body ->]. rewrite lookup_insert_eq. eauto. }
  destruct Hrun; eexists; (split; [eassumption|]); intros pre it done post Heq;
    try (exfalso; revert Heq; apply no_put_item; unfold pip_calls;
         repeat constructor; fail).
  - change (pip_calls pkg ++ [DynamoQuery pkg h; S3Upload (pkg ++ lit ".zip") true;
              S3List pkg; DynamoPutItem (new_item e pkg ver txt h) false])
      with ((pip_calls pkg ++ [DynamoQuery pkg h; S3Upload (pkg ++ lit ".zip") true;
               S3List pkg]) ++ [DynamoPutItem (new_item e pkg ver txt h) false])
      in Heq.
    apply (split_at_last is_put_item) in Heq as (-> & [= -> ->] & ->);
      [|unfold pip_calls; by repeat constructor|done].
    exists pkg, ver, txt, h. split_and!; auto.
    unfold pip_calls. simpl. rewrite !elem_of_cons. auto.
  - change (pip_calls pkg ++ [DynamoQuery pkg h; S3Upload (pkg ++ lit ".zip") true;
              S3List pkg; DynamoPutItem (new_item e pkg ver txt h) true])
      with ((pip_calls pkg ++ [DynamoQuery pkg h; S3Upload (pkg ++ lit ".zip") true;
               S3List pkg]) ++ [DynamoPutItem (new_item e pkg ver txt h) true])
      in Heq.
    apply (split_at_last is_put_item) in Heq as (-> & [= -> ->] & ->);
      [|unfold pip_calls; by repeat constructor|done].
    exists pkg, ver, txt, h. split_and!; auto.
    unfold pip_calls. simpl. rewrite !elem_of_cons. auto.
Qed.

(** What a run that returns has returned, and what it has done to the
    ledger and the bucket; two such runs return the same. *)
Lemma main_output_of_run {L : Type} (e : env) (ev : event L) :
  (∀ w out w',
      main e ev w = (Ok out, w') →
      ∃ pkg ver lic txt,
        ev_package ev = Some pkg ∧ ev_version ev = Some ver
        ∧ ev_license_info ev = Some lic
        ∧ frozen e pkg ver = Ok (txt, requirements_hash out)
        ∧ zip_file out = pkg ++ lit ".zip"
        ∧ package out = pkg
        ∧ version out = ver
        ∧ license_info out = lic
        ∧ (in_ledger pkg (requirements_hash out) (w_table w) = true
           ∧ w_table w' = w_table w ∧ w_bucket w' = w_bucket w
           ∨ in_ledger pkg (requirements_hash out) (w_table w) = false
           ∧ w_table w' = put_item (new_item e pkg ver txt (requirements_hash out))
                                   (w_table w)
           ∧ uploaded pkg w w'))
  ∧ (∀ w1 w2 out1 out2 w1' w2',
      main e ev w1 = (Ok out1, w1') →
      main e ev w2 = (Ok out2, w2') →
      out1 = out2).
Proof.
  assert (Hout : ∀ w out w', main e ev w = (Ok out, w') →
            ∃ pkg ver lic txt h,
              ev_package ev = Some pkg ∧ ev_version ev = Some ver
              ∧ ev_license_info ev = Some lic
              ∧ frozen e pkg ver = Ok (txt, h)
              ∧ out = result_of pkg ver h lic
              ∧ (in_ledger pkg h (w_table w) = true
                 ∧ w_table w' = w_table w ∧ w_bucket w' = w_bucket w
                 ∨ in_ledger pkg h (w_table w) = false
                 ∧ w_table w' = put_item (new_item e pkg ver txt h) (w_table w)
                 ∧ uploaded pkg w w')).
  { intros w out w' Hmain. apply main_run_of in Hmain.
    inversion Hmain as [|pkg ver lic r w0 Hpkg Hver Hlic Hrun]; subst.
    exists pkg, ver, lic.
    inversion Hrun as
      [| | | |ch txt h w0 Hinst Hfr Hq Hin [Ht Hb] Hc| | | |
       ch txt h w0 Hinst Hfr Hq Hin Hup Hlist Hput Ht Hb Hc]; subst;
      exists txt, h; split_and!; auto. }
  split.
  - intros w out w' (pkg & ver & lic & txt & h & ? & ? & ? & ? & -> & ?)%Hout.
    exists pkg, ver, lic, txt. by split_and!.
  - intros w1 w2 out1 out2 w1' w2'
      (pkg & ver & lic & txt & h & ? & ? & ? & ? & -> & _)%Hout
      (pkg' & ver' & lic' & txt' & h' & ? & ? & ? & ? & -> & _)%Hout.
    assert (pkg' = pkg) as -> by congruence.
    assert (ver' = ver) as -> by congruence.
    assert (lic' = lic) as -> by congruence.
    by same_frozen.
Qed.

(** * Further properties *)

(** ** Errors and edge cases of [freeze_requirements] *)

(* proofs *)
Lemma for_each_app {A S : Type} (body : S → A → result S) acc (l1 l2 : list A) :
  for_each body acc (l1 ++ l2)
  = for_each body acc l1 ≫= fun acc' => for_each body acc' l2.
Proof.
  revert acc. induction l1 as [|x l1 IH]; intros acc; simpl; [done|].
  destruct (body acc x); [apply IH|done].
Qed.

Lemma for_each_ext {A S : Type} (f g : S → A → result S) acc (l : list A) :
  (∀ a x, x ∈ l → f a x = g a x) → for_each f acc l = for_each g acc l.
Proof.
  revert acc. induction l as [|x l IH]; intros acc H; simpl; [done|].
  rewrite (H acc x) by left. destruct (g acc x) as [acc'|]; [|done].
  apply IH. intros b y Hy. apply H. by right.
Qed.

Lemma scan_dirs_raise {B : Type} (emit : str → str → B) acc dirs ex :
  for_each (scan_dir emit) acc dirs = Raise ex → ex = IndexError.
Proof.
  revert acc. induction dirs as [|d dirs IH]; intros acc; simpl; [done|].
  unfold scan_dir at 1. unfold dist_info.
  destruct (str_eqb _ _); [|apply IH].
  destruct (py_split HYPHEN _) as [|? [|? ?]]; simpl; try (by intros [= <-]).
  apply IH.
Qed.

Lemma dist_info_no_hyphen stem :
  HYPHEN ∉ stem → dist_info (stem ++ lit ".dist-info") = Raise IndexError.
Proof.
  intros H. unfold dist_info.
  by rewrite py_last_app, py_but_last_app, str_eqb_refl, py_split_none.
Qed.

(** X1. A directory whose name ends in [.dist-info] and holds no hyphen
    before that suffix makes [freeze_requirements] raise [IndexError]. *)
Theorem freeze_requirements_index_error
    (fs : filesystem) (package path : str) (version : value)
    (subdir : str) (dirs files : list str) (rest : list (str * list str * list str))
    (before after : list str) (stem : str) :
  os_walk fs path = (subdir, dirs, files) :: rest →
  dirs = before ++ (stem ++ lit ".dist-info") :: after →
  HYPHEN ∉ stem →
  freeze_requirements fs package path version = Raise IndexError.
Proof.
  intros Hwalk -> Hstem.
  unfold freeze_requirements, collect_requirements, collect. rewrite Hwalk.
  simpl. rewrite for_each_app.
  destruct (for_each (scan_dir entry) [] before) as [acc|ex] eqn:Hb; simpl.
  - unfold scan_dir at 1. by rewrite dist_info_no_hyphen.
  - by apply scan_dirs_raise in Hb as ->.
Qed.

Lemma freeze_requirements_index_error_witness :
  freeze_requirements (fs_of tmp_python (Some tree_no_version))
    (lit "requests") tmp_python (VStr (lit "1")) = Raise IndexError.
Proof.
  apply (freeze_requirements_index_error _ _ _ _ tmp_python
           [lit "requests"; lit "broken.dist-info"] []
           [(lit "/tmp/python/requests", [], []);
            (lit "/tmp/python/broken.dist-info", [], [])]
           [lit "requests"] [] (lit "broken")).
  - vm_compute. reflexivity.
  - reflexivity.
  - apply (bool_decide_unpack _). vm_compute. exact I.
Defined.

Lemma scan_triple_no_marker {B : Type} (emit : str → str → B) fs acc t :
  has_marker t = false → scan_triple emit fs acc t = Ok acc.
Proof.
  destruct t as [[subdir dirs] files]. unfold has_marker, scan_triple.
  cbn [fst snd]. intros [Hd Hf]%orb_false_iff.
  assert (Hdirs : for_each (scan_dir emit) acc dirs = Ok acc).
  { clear Hf. induction dirs as [|d dirs IH]; [done|].
    cbn [existsb] in Hd. apply orb_false_iff in Hd as [Hd1 Hd2].
    cbn [for_each]. unfold scan_dir at 1. unfold dist_info. rewrite Hd1.
    by apply IH. }
  rewrite Hdirs. clear Hd Hdirs. change (for_each (scan_file emit fs subdir) acc files = Ok acc).
  induction files as [|f files IH]; [done|].
  cbn [for_each]. unfold scan_file at 1. cbn [existsb] in Hf.
  destruct (str_eqb f (lit "PKG-INFO")); cbn [andb orb] in *.
  - rewrite andb_true_r in Hf. rewrite Hf. apply IH. by rewrite Hf.
  - apply IH. done.
Qed.

(** X2. A walk without metadata markers gives the empty manifest. *)
Theorem freeze_requirements_no_marker
    (fs : filesystem) (package path : str) (version : value) :
  existsb has_marker (os_walk fs path) = false →
  freeze_requirements fs package path version = Ok ([], empty_hash).
Proof.
  intros H. unfold freeze_requirements, collect_requirements, collect.
  assert (Hc : for_each (scan_triple entry fs) [] (os_walk fs path) = Ok []).
  { induction (os_walk fs path) as [|t ts IH]; simpl in *; [done|].
    apply orb_false_iff in H as [Ht Hts].
    rewrite scan_triple_no_marker by done. auto. }
  rewrite Hc. vm_compute. reflexivity.
Qed.

Lemma freeze_requirements_no_marker_witness :
  freeze_requirements (fs_of tmp_python (Some tree_plain))
    (lit "requests") tmp_python (VStr (lit "1")) = Ok ([], empty_hash).
Proof.
  apply freeze_requirements_no_marker. vm_compute. reflexivity.
Defined.

(** X3. Only [PKG-INFO] files of [egg-info] directories are read. *)
Theorem freeze_requirements_reads_only_pkg_info
    (fs1 fs2 : filesystem) (package path : str) (version : value) :
  os_walk fs1 path = os_walk fs2 path →
  (∀ subdir, py_last 8 subdir = lit "egg-info" →
             open_text fs1 (subdir ++ lit "/PKG-INFO")
             = open_text fs2 (subdir ++ lit "/PKG-INFO")) →
  freeze_requirements fs1 package path version
  = freeze_requirements fs2 package path version.
Proof.
  intros Hwalk Hopen.
  unfold freeze_requirements, collect_requirements, collect. rewrite Hwalk.
  f_equal. apply for_each_ext. intros acc [[subdir dirs] files] _.
  unfold scan_triple. destruct (for_each (scan_dir entry) acc dirs); [|done].
  simpl. apply for_each_ext. intros acc' file _. unfold scan_file.
  destruct (str_eqb file (lit "PKG-INFO")) eqn:Hfile; [|done].
  destruct (str_eqb (py_last 8 subdir) (lit "egg-info")) eqn:Hsub; [|done].
  apply str_eqb_eq in Hfile as ->. apply str_eqb_eq in Hsub.
  change (subdir ++ lit "/" ++ lit "PKG-INFO") with (subdir ++ lit "/PKG-INFO").
  by rewrite (Hopen subdir Hsub).
Qed.

Lemma freeze_requirements_reads_only_pkg_info_witness :
  freeze_requirements (fs_probe (Raise OSError)) (lit "bar") tmp_python (VInt 1)
  = freeze_requirements (fs_probe (Ok (lit "Name: other"))) (lit "bar")
      tmp_python (VInt 1).
Proof.
  apply freeze_requirements_reads_only_pkg_info.
  - reflexivity.
  - intros subdir _. unfold fs_probe, open_text.
    by rewrite py_last_app, str_eqb_refl.
Defined.

(** ** Headers of a [PKG-INFO] *)

Lemma name_line_is_not_version (n : str) :
  str_eqb (take 8 (lit "Name:" ++ n)) (lit "Version:") = false.
Proof.
  unfold str_eqb. apply bool_decide_eq_false. intros H. vm_compute in H.
  destruct n as [|? [|? [|? ?]]]; discriminate.
Qed.

Lemma scan_name_line st n :
  scan_line st (lit "Name:" ++ n) = (fst st, Some (py_strip n)).
Proof.
  unfold scan_line. rewrite name_line_is_not_version.
  change (take 5 (lit "Name:" ++ n)) with (lit "Name:").
  change (drop 5 (lit "Name:" ++ n)) with n.
  by rewrite str_eqb_refl.
Qed.

Lemma scan_version_line st v :
  scan_line st (lit "Version:" ++ v) = (Some (py_strip v), snd st).
Proof.
  unfold scan_line.
  change (take 8 (lit "Version:" ++ v)) with (lit "Version:").
  change (drop 8 (lit "Version:" ++ v)) with v.
  change (take 5 (lit "Version:" ++ v)) with (lit "Versi").
  rewrite str_eqb_refl. by replace (str_eqb (lit "Versi") (lit "Name:")) with false.
Qed.

(** X4. In a [PKG-INFO] the last [Name:] line and the last [Version:] line
    count: a later line replaces the value of an earlier one, and a later
    line whose value is blank removes it, so that the file contributes
    nothing. *)
Theorem pkg_info_last_line_wins (lines : list str) (n v : str) :
  (py_strip n = [] → pkg_info (lines ++ [lit "Name:" ++ n]) = None)
  ∧ (py_strip v = [] → pkg_info (lines ++ [lit "Version:" ++ v]) = None)
  ∧ (∀ name version,
       pkg_info lines = Some (name, version) →
       py_strip n ≠ [] →
       pkg_info (lines ++ [lit "Name:" ++ n]) = Some (py_strip n, version))
  ∧ (∀ name version,
       pkg_info lines = Some (name, version) →
       py_strip v ≠ [] →
       pkg_info (lines ++ [lit "Version:" ++ v]) = Some (name, py_strip v)).
Proof.
  unfold pkg_info. rewrite !foldl_app. cbn [foldl].
  rewrite scan_name_line, scan_version_line.
  destruct (foldl scan_line (None, None) lines) as [[[|c ver]|] [[|d nam]|]];
    cbn [fst snd truthy andb]; split_and!; try done.
  all: try (intros ->; done).
  all: try (intros ->; by destruct (_ : list N)).
  all: intros name version [= <- <-] Hne;
       by destruct (py_strip _) eqn:E.
Qed.

(** ** When the encoding fails *)

Lemma utf8_char_encodable (c : N) : is_Some (utf8_char c) ↔ encodable c = true.
Proof.
  unfold utf8_char, encodable.
  destruct (N.ltb_spec c 128), (N.ltb_spec c 2048), (N.leb_spec 55296 c),
    (N.leb_spec c 57343), (N.ltb_spec c 65536), (N.ltb_spec c 1114112),
    (N.ltb_spec c 55296), (N.ltb_spec 57343 c);
    simpl; try lia; split; try done; try (by eauto); by intros [? [=]].
Qed.

Lemma encode_utf8_encodable (s : str) :
  is_Some (encode_utf8 s) ↔ forallb encodable s = true.
Proof.
  induction s as [|c s IH]; simpl; [by eauto|].
  rewrite andb_true_iff, <- IH, <- utf8_char_encodable.
  destruct (utf8_char c), (encode_utf8 s); split;
    try (by intros [? [=]]); try (by intros [[? [=]] ?]);
    try (by intros [? [? [=]]]); eauto.
Qed.

Lemma forallb_py_join (P : N → bool) (sep : N) (l : list str) :
  P sep = true → forallb P (py_join sep l) = forallb (forallb P) l.
Proof.
  intros Hsep. induction l as [|s [|s' l'] IH]; [done| |].
  - simpl. by rewrite andb_true_r.
  - change (py_join sep (s :: s' :: l')) with (s ++ sep :: py_join sep (s' :: l')).
    rewrite forallb_app. cbn [forallb] in *. by rewrite Hsep, IH.
Qed.

Lemma forallb_Permutation {A : Type} (P : A → bool) (l1 l2 : list A) :
  l1 ≡ₚ l2 → forallb P l1 = forallb P l2.
Proof.
  induction 1 as [|x l1 l2 _ IH|x y l|l1 l2 l3 _ IH1 _ IH2]; simpl;
    [done|by rewrite IH|by destruct (P x), (P y)|congruence].
Qed.

Lemma forallb_fmap {A B : Type} (P : B → bool) (f : A → B) (l : list A) :
  forallb P (map f l) = forallb (fun x => P (f x)) l.
Proof. induction l as [|x l IH]; simpl; [done|by rewrite IH]. Qed.

(** X5. [freeze_requirements] fails with [UnicodeEncodeError] exactly when
    an entry holds a code point without UTF-8 encoding (a surrogate, as
    [os.walk] gives for undecodable bytes of a file name). *)
Theorem freeze_requirements_unicode_error
    (fs : filesystem) (package path : str) (version : value)
    (pairs : list (str * str)) :
  discovered fs path = Ok pairs →
  (forallb (fun p => forallb encodable (entry_of p)) pairs = true →
   ∃ txt h, freeze_requirements fs package path version = Ok (txt, h))
  ∧ (forallb (fun p => forallb encodable (entry_of p)) pairs = false →
     freeze_requirements fs package path version = Raise UnicodeEncodeError).
Proof.
  intros H. rewrite (freeze_requirements_discovered _ _ _ _ _ H).
  unfold manifest_of, sha256_hex.
  assert (Henc : is_Some (encode_utf8 (joined (map entry_of pairs)))
                 ↔ forallb (fun p => forallb encodable (entry_of p)) pairs = true).
  { rewrite encode_utf8_encodable. unfold joined.
    rewrite forallb_py_join by done.
    rewrite (forallb_Permutation _ _ _ (sorted_Permutation _)).
    by rewrite forallb_fmap. }
  destruct (encode_utf8 (joined (map entry_of pairs))) as [bs|].
  - split; [by eauto|]. intros Hf. destruct Henc as [Henc _].
    rewrite Henc in Hf by eauto. done.
  - split; [|done]. intros Ht. apply Henc in Ht as [? [=]].
Qed.

Lemma freeze_requirements_unicode_error_witness :
  freeze_requirements (fs_of tmp_python (Some tree_surrogate))
    (lit "cafe") tmp_python (VInt 1) = Raise UnicodeEncodeError.
Proof.
  apply (freeze_requirements_unicode_error _ _ _ _
           [(lit "caf" ++ [56553], lit "1.0")]);
    vm_compute; reflexivity.
Defined.

(** ** The shape of the fingerprint *)

Lemma length_be_bytes (n : nat) (x : N) : length (SHA256.be_bytes n x) = n.
Proof.
  revert x. induction n as [|n IH]; intros x; simpl; [done|].
  rewrite length_app, IH. simpl. lia.
Qed.

Lemma be_bytes_lt (n : nat) (x : N) :
  Forall (fun b => b < 256) (SHA256.be_bytes n x).
Proof.
  revert x. induction n as [|n IH]; intros x; simpl; [constructor|].
  apply Forall_app. split; [apply IH|]. constructor; [|constructor].
  change 255 with (N.ones 8). rewrite N.land_ones. by apply N.mod_lt.
Qed.

Lemma length_compress (h block : list N) :
  length h = 8%nat → length (SHA256.compress h block) = 8%nat.
Proof.
  intros Hh. unfold SHA256.compress. rewrite length_zip_with, Hh. done.
Qed.

Lemma length_digest (msg : list N) : length (SHA256.digest msg) = 32%nat.
Proof.
  unfold SHA256.digest.
  assert (Hh : ∀ blocks h, length h = 8%nat →
                 length (foldl SHA256.compress h blocks) = 8%nat).
  { induction blocks as [|b blocks IH]; intros h Hh; simpl; [done|].
    by apply IH, length_compress. }
  specialize (Hh (SHA256.chunks (length (SHA256.pad msg)) 64 (SHA256.pad msg))
                 SHA256.H0 eq_refl).
  revert Hh. generalize (foldl SHA256.compress SHA256.H0
    (SHA256.chunks (length (SHA256.pad msg)) 64 (SHA256.pad msg))).
  intros h Hh.
  assert (Hc : ∀ l : list N, length (concat (map (SHA256.be_bytes 4) l))
                             = (4 * length l)%nat).
  { induction l as [|x l IH]; [done|].
    cbn [map concat]. rewrite length_app, length_be_bytes, IH. simpl. lia. }
  by rewrite Hc, Hh.
Qed.

Lemma digest_bytes (msg : list N) : Forall (fun b => b < 256) (SHA256.digest msg).
Proof.
  unfold SHA256.digest.
  generalize (foldl SHA256.compress SHA256.H0
    (SHA256.chunks (length (SHA256.pad msg)) 64 (SHA256.pad msg))).
  induction l as [|x l IH]; [constructor|].
  cbn [map concat]. apply Forall_app. split; [apply (be_bytes_lt 4)|apply IH].
Qed.

Lemma hex_digit_lower (d : N) : d < 16 → is_hex_lower (SHA256.hex_digit d) = true.
Proof.
  intros Hd. unfold SHA256.hex_digit, is_hex_lower.
  destruct (N.ltb_spec d 10).
  - replace (48 <=? 48 + d) with true by (symmetry; apply N.leb_le; lia).
    replace (48 + d <=? 57) with true by (symmetry; apply N.leb_le; lia). done.
  - replace (97 <=? 87 + d) with true by (symmetry; apply N.leb_le; lia).
    replace (87 + d <=? 102) with true by (symmetry; apply N.leb_le; lia).
    by rewrite orb_true_r.
Qed.

Lemma hex_shape (bs : list N) :
  Forall (fun b => b < 256) bs →
  length (SHA256.hex bs) = (2 * length bs)%nat
  ∧ forallb is_hex_lower (SHA256.hex bs) = true.
Proof.
  unfold SHA256.hex. induction 1 as [|b bs Hb _ [IHl IHf]]; [done|].
  cbn [map concat app length forallb]. rewrite IHl, IHf. split; [lia|].
  rewrite !hex_digit_lower; [done| |].
  - change 15 with (N.ones 4). rewrite N.land_ones. by apply N.mod_lt.
  - rewrite N.shiftr_div_pow2. apply N.Div0.div_lt_upper_bound.
    change (2 ^ 4 * 16) with 256. done.
Qed.

(** X6. The fingerprint that [freeze_requirements] returns is a string of
    64 characters, each a digit or a letter from [a] to [f]. *)
Theorem fingerprint_is_64_hex
    (fs : filesystem) (package path : str) (version : value) (txt h : str) :
  freeze_requirements fs package path version = Ok (txt, h) →
  length h = 64%nat ∧ forallb is_hex_lower h = true.
Proof.
  intros (rs & _ & _ & Hh)%freeze_requirements_returns.
  unfold sha256_hex in Hh. destruct (encode_utf8 _) as [bs|]; [|done].
  injection Hh as <-. unfold SHA256.hexdigest.
  destruct (hex_shape _ (digest_bytes bs)) as [Hl Hf].
  by rewrite Hl, length_digest.
Qed.

Lemma fingerprint_is_64_hex_witness :
  length hash_requests = 64%nat ∧ forallb is_hex_lower hash_requests = true.
Proof.
  apply (fingerprint_is_64_hex (fs_of tmp_python (Some tree_requests))
           (lit "requests") tmp_python (VStr (lit "2.31.0"))
           (lit "requests==2.31.0" ++ LF :: lit "urllib3==2.0.0")).
  vm_compute. reflexivity.
Defined.

(** ** Reading the manifest back *)

Lemma py_lstrip_id (c : N) (s : str) :
  is_space c = false → py_lstrip (c :: s) = c :: s.
Proof. intros H. simpl. by rewrite H. Qed.

Lemma py_rstrip_id (s : str) (c : N) :
  last s = Some c → is_space c = false → py_rstrip s = s.
Proof.
  intros [s' ->]%last_Some Hc. unfold py_rstrip.
  rewrite reverse_snoc, py_lstrip_id by done.
  by rewrite <- reverse_snoc, reverse_involutive.
Qed.

Lemma py_join_ends (sep : N) (es : list str) :
  es ≠ [] → Forall (fun e => e ≠ [] ∧ no_space e = true) es →
  (∃ c rest, py_join sep es = c :: rest ∧ is_space c = false)
  ∧ (∃ c, last (py_join sep es) = Some c ∧ is_space c = false).
Proof.
  assert (Hfirst : ∀ e : str, e ≠ [] → no_space e = true →
            ∃ c rest, e = c :: rest ∧ is_space c = false).
  { intros [|c rest] Hne Hns; [done|]. exists c, rest. split; [done|].
    unfold no_space in Hns. simpl in Hns.
    apply andb_true_iff in Hns as [Hc _]. by destruct (is_space c). }
  assert (Hlast : ∀ e : str, e ≠ [] → no_space e = true →
            ∃ c, last e = Some c ∧ is_space c = false).
  { intros e Hne Hns. destruct (last e) as [c|] eqn:Hl.
    - exists c. split; [done|]. apply last_Some in Hl as [e' ->].
      unfold no_space in Hns. rewrite forallb_app in Hns. simpl in Hns.
      apply andb_true_iff in Hns as [_ Hc]. by destruct (is_space c).
    - by apply last_None in Hl. }
  induction es as [|e [|e' es] IH]; intros Hne Hall; [done| |].
  - apply Forall_inv in Hall as [? ?]. simpl. split; auto.
  - apply Forall_cons in Hall as [[He1 He2] Hall].
    change (py_join sep (e :: e' :: es)) with (e ++ sep :: py_join sep (e' :: es)).
    destruct (IH ltac:(done) Hall) as [_ (c & Hc & Hsp)]. split.
    + destruct (Hfirst e He1 He2) as (d & rest & -> & Hd).
      by exists d, (rest ++ sep :: py_join sep (e' :: es)).
    + exists c. split; [|done]. by rewrite last_app_cons, last_cons, Hc.
Qed.

Lemma no_space_no_lf (s : str) : no_space s = true → LF ∉ s.
Proof.
  unfold no_space. rewrite forallb_forall. intros H Hin.
  apply list_elem_of_In in Hin. by apply H in Hin.
Qed.

Lemma entry_no_space (p : str * str) :
  pair_no_space p = true → entry_of p ≠ [] ∧ no_space (entry_of p) = true.
Proof.
  intros [Hn Hv]%andb_true_iff. unfold entry_of, entry, no_space in *.
  split; [by destruct (fst p)|].
  by rewrite !forallb_app, Hn, Hv.
Qed.

(** X7. When no discovered name or version holds a whitespace character,
    [strip()] changes nothing: the returned text is the joined text, it
    splits at line feeds into the sorted entries, and the fingerprint is
    the digest of the returned text. *)
Theorem manifest_round_trip
    (fs : filesystem) (package path : str) (version : value)
    (pairs : list (str * str)) (txt h : str) :
  discovered fs path = Ok pairs →
  pairs ≠ [] →
  forallb pair_no_space pairs = true →
  freeze_requirements fs package path version = Ok (txt, h) →
  txt = joined (map entry_of pairs)
  ∧ py_split LF txt = sorted (map entry_of pairs)
  ∧ sha256_hex txt = Some h.
Proof.
  intros Hd Hne Hns Hfr.
  rewrite (freeze_requirements_discovered _ _ _ _ _ Hd) in Hfr.
  unfold manifest_of in Hfr.
  destruct (sha256_hex (joined (map entry_of pairs))) as [h'|] eqn:Hh; [|done].
  injection Hfr as <- <-.
  assert (Hall : Forall (fun e => e ≠ [] ∧ no_space e = true)
                   (sorted (map entry_of pairs))).
  { rewrite sorted_Permutation. apply Forall_map, Forall_forall. intros p Hp.
    apply entry_no_space. rewrite forallb_forall in Hns.
    by apply Hns, list_elem_of_In. }
  assert (Hnil : sorted (map entry_of pairs) ≠ []).
  { intros Hnil. apply Hne. apply (map_eq_nil entry_of), Permutation_nil_r.
    by rewrite <- Hnil, sorted_Permutation. }
  destruct (py_join_ends LF _ Hnil Hall) as [(c & rest & Hc & Hsp) (d & Hd' & Hdsp)].
  assert (Hstrip : py_strip (joined (map entry_of pairs))
                   = joined (map entry_of pairs)).
  { unfold py_strip, joined. rewrite Hc, py_lstrip_id by done.
    rewrite <- Hc. by apply (py_rstrip_id _ d). }
  rewrite Hstrip. split_and!; [done| |done].
  unfold joined. apply py_split_join; [done|].
  eapply Forall_impl; [exact Hall|]. intros e [_ He]. by apply no_space_no_lf.
Qed.

Lemma manifest_round_trip_witness :
  py_split LF (lit "requests==2.31.0" ++ LF :: lit "urllib3==2.0.0")
  = sorted (map entry_of [(lit "requests", lit "2.31.0"); (lit "urllib3", lit "2.0.0")]).
Proof.
  apply (manifest_round_trip (fs_of tmp_python (Some tree_requests))
           (lit "requests") tmp_python (VStr (lit "2.31.0"))
           [(lit "requests", lit "2.31.0"); (lit "urllib3", lit "2.0.0")]
           _ hash_requests); try done; vm_compute; reflexivity.
Defined.

(** ** The helpers one by one *)

Lemma foldl_size (children : list node) (a : N) :
  foldl (fun total n => total + node_size n) a children
  = a + foldl (fun total n => total + node_size n) 0 children.
Proof.
  revert a. induction children as [|n children IH]; intros a; cbn [foldl]; [lia|].
  rewrite (IH (a + node_size n)), (IH (0 + node_size n)). lia.
Qed.

Lemma foldl_size_Permutation (c1 c2 : list node) :
  c1 ≡ₚ c2 →
  foldl (fun total n => total + node_size n) 0 c1
  = foldl (fun total n => total + node_size n) 0 c2.
Proof.
  induction 1 as [|x l1 l2 _ IH|x y l|l1 l2 l3 _ IH1 _ IH2]; cbn [foldl].
  - done.
  - by rewrite (foldl_size l1), (foldl_size l2), IH.
  - rewrite (foldl_size l (0 + node_size y + node_size x)),
      (foldl_size l (0 + node_size x + node_size y)). lia.
  - congruence.
Qed.

(** X8. [dir_size] changes nothing, raises [FileNotFoundError] for a
    directory that does not exist, and gives the same total in whatever
    order the entries are listed. *)
Theorem dir_size_total (path : str) (w : world) :
  snd (dir_size path w) = w
  ∧ (w_dirs w !! path = None → fst (dir_size path w) = Raise FileNotFoundError)
  ∧ (∀ c1 c2 w2,
       w_dirs w !! path = Some c1 → w_dirs w2 !! path = Some c2 → c1 ≡ₚ c2 →
       fst (dir_size path w) = fst (dir_size path w2)).
Proof.
  rewrite dir_size_run. split_and!.
  - done.
  - by intros ->.
  - intros c1 c2 w2 H1 H2 Hp. rewrite dir_size_run, H1, H2. simpl.
    by rewrite (foldl_size_Permutation c1 c2).
Qed.






(** X11. [upload_to_s3] without the local zip file raises
    [FileNotFoundError] before any call; with it, and with a key that
    starts with the package name, it returns the key, the bucket holds the
    zip under that key in place of whatever was there, and every other key
    is as before. *)
Theorem upload_to_s3_overwrites (e : env) (z pkg key : str) (w : world) :
  (w_zips w !! z = None →
   upload_to_s3 e z pkg key w = (Raise FileNotFoundError, w))
  ∧ (∀ body,
       w_zips w !! z = Some body →
       upload_error e = false → list_error e = false →
       starts_with pkg key = true →
       fst (upload_to_s3 e z pkg key w) = Ok key
       ∧ w_bucket (snd (upload_to_s3 e z pkg key w)) !! key = Some body
       ∧ (∀ k, k ≠ key →
            w_bucket (snd (upload_to_s3 e z pkg key w)) !! k = w_bucket w !! k)
       ∧ w_table (snd (upload_to_s3 e z pkg key w)) = w_table w).
Proof.
  unfold upload_to_s3. run. split.
  - by intros ->.
  - intros body -> Hup Hlist Hkey. rewrite Hup, Hlist. run.
    cbn [w_bucket with_bucket with_call].
    assert (Hex : existsb (starts_with pkg)
              (map fst (map_to_list (<[key:=body]> (w_bucket w)))) = true).
    { apply existsb_exists. exists key. split; [|done].
      apply list_elem_of_In, list_elem_of_fmap. exists (key, body).
      split; [done|]. apply elem_of_map_to_list, lookup_insert_eq. }
    rewrite Hex. run. simpl. split_and!; try done.
    + apply lookup_insert_eq.
    + intros k Hk. by rewrite lookup_insert_ne.
Qed.

(** X12. When neither the key nor any object of the bucket starts with the
    package name, [upload_to_s3] stores the object and then raises
    [KeyError] on the listing it reads back for its log line. *)
Theorem upload_to_s3_key_error (e : env) (z pkg key : str) (w : world) (body : archive) :
  w_zips w !! z = Some body →
  upload_error e = false → list_error e = false →
  starts_with pkg key = false →
  (∀ k, is_Some (w_bucket w !! k) → starts_with pkg k = false) →
  fst (upload_to_s3 e z pkg key w) = Raise KeyError
  ∧ w_bucket (snd (upload_to_s3 e z pkg key w)) !! key = Some body
  ∧ w_calls (snd (upload_to_s3 e z pkg key w))
    = w_calls w ++ [S3Upload key true; S3List pkg].
Proof.
  intros Hz Hup Hlist Hkey Hothers. unfold upload_to_s3. run.
  rewrite Hz, Hup, Hlist. run. cbn [w_bucket with_bucket with_call].
  assert (Hex : existsb (starts_with pkg)
            (map fst (map_to_list (<[key:=body]> (w_bucket w)))) = false).
  { apply not_true_iff_false. intros (k & Hin & Hk)%existsb_exists.
    apply list_elem_of_In, list_elem_of_fmap in Hin as ([k' b] & -> & Hin).
    apply elem_of_map_to_list in Hin. simpl in Hk.
    destruct (decide (k' = key)) as [->|Hne]; [congruence|].
    rewrite lookup_insert_ne in Hin by done.
    rewrite Hothers in Hk by eauto. done. }
  rewrite Hex. run. simpl. split_and!; [done|apply lookup_insert_eq|].
  by rewrite <- app_assoc.
Qed.

Lemma in_ledger_put_item (it : item) (table : list item) (pkg h : str) :
  in_ledger pkg h (put_item it table)
  = key_matches pkg h it || in_ledger pkg h table.
Proof.
  unfold in_ledger, put_item. rewrite existsb_app. cbn [existsb].
  destruct (key_matches pkg h it) eqn:Hit; cbn [orb];
    [by rewrite orb_true_r|rewrite orb_false_r].
  induction table as [|old table IH]; [done|]. cbn [List.filter existsb].
  destruct (key_matches pkg h old) eqn:Hold.
  - replace (negb _) with true; [cbn [existsb]; by rewrite Hold|].
    symmetry. apply negb_true_iff.
    apply not_true_iff_false. unfold key_matches in *.
    intros [?%str_eqb_eq ?%str_eqb_eq]%andb_true_iff.
    apply andb_true_iff in Hold as [?%str_eqb_eq ?%str_eqb_eq].
    rewrite <- H, <- H0, H1, H2, !str_eqb_refl in Hit. done.
  - destruct (negb _); cbn [existsb orb]; rewrite ?Hold; apply IH.
Qed.

(** X13. What [put_requirements_hash] has written, [check_requirement_hash]
    finds; the answer for any other package or hash is what it was. *)
Theorem ledger_round_trip (e : env) (pkg : str) (ver : value) (txt h : str)
    (w : world) :
  put_error e = false → query_error e = false →
  fst (put_requirements_hash e pkg ver txt h w) = Ok tt
  ∧ fst (check_requirement_hash e pkg h
           (snd (put_requirements_hash e pkg ver txt h w))) = Ok true
  ∧ (∀ pkg' h', (pkg', h') ≠ (pkg, h) →
       fst (check_requirement_hash e pkg' h'
              (snd (put_requirements_hash e pkg ver txt h w)))
       = fst (check_requirement_hash e pkg' h' w)).
Proof.
  intros Hput Hq. rewrite put_requirements_hash_run, Hput. cbn [fst snd].
  split; [done|]. rewrite !check_requirement_hash_run, Hq. cbn [fst].
  cbn [w_table with_table with_call]. rewrite in_ledger_put_item.
  unfold key_matches at 1. cbn [new_item i_package i_requirements_hash].
  rewrite !str_eqb_refl. split; [done|].
  intros pkg' h' Hne. rewrite !check_requirement_hash_run, Hq. cbn [fst].
  cbn [w_table with_table with_call]. rewrite in_ledger_put_item.
  unfold key_matches at 1. cbn [new_item i_package i_requirements_hash].
  replace (str_eqb pkg pkg' && str_eqb h h') with false; [done|].
  symmetry. apply not_true_iff_false.
  intros [?%str_eqb_eq ?%str_eqb_eq]%andb_true_iff. congruence.
Qed.

Lemma ledger_round_trip_witness :
  fst (check_requirement_hash env_ok (lit "requests") hash_requests
         (snd (put_requirements_hash env_ok (lit "requests") (VInt 2)
                 (lit "requests==2") hash_requests empty_world))) = Ok true.
Proof.
  by apply (ledger_round_trip env_ok (lit "requests") (VInt 2) (lit "requests==2")
              hash_requests empty_world).
Defined.

Lemma upload_to_s3_key_error_witness :
  fst (upload_to_s3 env_ok (lit "/tmp/requests.zip") (lit "requests")
         (lit "layer.zip") world_with_zip) = Raise KeyError.
Proof.
  apply (upload_to_s3_key_error env_ok (lit "/tmp/requests.zip") (lit "requests")
           (lit "layer.zip") world_with_zip
           {| a_base_dir := lit "python"; a_content := tree_requests |});
    try reflexivity.
  intros k [b Hb]. unfold world_with_zip, with_zips, empty_world in Hb.
  cbn [w_bucket] in Hb. by rewrite lookup_empty in Hb.
Defined.

(** ** The paths of [main] *)

Lemma forallb_py_lstrip (P : N → bool) (s : str) :
  forallb P s = true → forallb P (py_lstrip s) = true.
Proof.
  induction s as [|c s IH]; [done|]. simpl.
  intros [Hc Hs]%andb_true_iff. destruct (is_space c); [auto|].
  simpl. by rewrite Hc, Hs.
Qed.

Lemma forallb_reverse (P : N → bool) (s : str) :
  forallb P (reverse s) = forallb P s.
Proof. apply forallb_Permutation, reverse_Permutation. Qed.

Lemma forallb_py_strip (P : N → bool) (s : str) :
  forallb P s = true → forallb P (py_strip s) = true.
Proof.
  intros H. unfold py_strip, py_rstrip.
  rewrite forallb_reverse. apply forallb_py_lstrip.
  rewrite forallb_reverse. by apply forallb_py_lstrip.
Qed.

Lemma frozen_text_encodes fs package path version txt h :
  freeze_requirements fs package path version = Ok (txt, h) →
  is_Some (encode_utf8 txt).
Proof.
  intros (rs & _ & -> & Hh)%freeze_requirements_returns.
  apply encode_utf8_encodable, forallb_py_strip, encode_utf8_encodable.
  unfold sha256_hex in Hh. destruct (encode_utf8 _); [eauto|done].
Qed.

Lemma main_until_write {L : Type} (e : env) (ev : event L) (w : world)
    pkg ver lic children txt h :
  ev_package ev = Some pkg → ev_version ev = Some ver →
  ev_license_info ev = Some lic →
  installed e pkg = Some children →
  frozen e pkg ver = Ok (txt, h) →
  ∃ w1,
    w_dirs w1 !! tmp_python = Some children
    ∧ w_table w1 = w_table w ∧ w_bucket w1 = w_bucket w
    ∧ w_calls w1 = w_calls w ++ pip_calls pkg
    ∧ main e ev w
      = (write_text tmp_python (lit "requirements.txt") txt;;
         zip_file ← zip_dir tmp_python pkg;
         publish_or_skip e pkg ver lic txt h zip_file) w1.
Proof.
  intros Hpkg Hver Hlic Hinst Hfr. unfold main. rewrite Hpkg, Hver, Hlic.
  cbn [subscript]. run.
  change (lit "/tmp/python") with tmp_python.
  destruct (install_run e pkg tmp_python w) as (w1 & Hrun & Hdir & Ht1 & Hb1 & Hc1).
  rewrite Hrun. run. rewrite dir_size_run.
  fold (installed e pkg) in Hdir. rewrite Hinst in Hdir. rewrite Hdir. run.
  unfold freeze_requirements_here. run. rewrite Hdir, <- Hinst.
  fold (frozen e pkg ver). rewrite Hfr. run.
  exists w1. rewrite Hinst. split_and!; try done.
Qed.

Lemma main_until_query {L : Type} (e : env) (ev : event L) (w : world)
    pkg ver lic children txt h :
  ev_package ev = Some pkg → ev_version ev = Some ver →
  ev_license_info ev = Some lic →
  installed e pkg = Some children →
  frozen e pkg ver = Ok (txt, h) →
  has_dir (lit "requirements.txt") children = false →
  ∃ bytes w3,
    encode_utf8 txt = Some bytes
    ∧ w_zips w3 !! ((lit "/tmp/" ++ pkg) ++ lit ".zip")
      = Some {| a_base_dir := lit "python";
                a_content := with_file (lit "requirements.txt") txt bytes children |}
    ∧ w_table w3 = w_table w ∧ w_bucket w3 = w_bucket w
    ∧ w_calls w3 = w_calls w ++ pip_calls pkg
    ∧ main e ev w
      = publish_or_skip e pkg ver lic txt h ((lit "/tmp/" ++ pkg) ++ lit ".zip") w3.
Proof.
  intros Hpkg Hver Hlic Hinst Hfr Hdir.
  destruct (main_until_write e ev w _ _ _ _ _ _ Hpkg Hver Hlic Hinst Hfr)
    as (w1 & Hd1 & Ht1 & Hb1 & Hc1 & ->).
  destruct (frozen_text_encodes (fs_of tmp_python (installed e pkg)) pkg
              tmp_python ver txt h Hfr) as [bytes Hbytes].
  exists bytes. run. unfold write_text at 1. run. rewrite Hd1.
  fold (has_dir (lit "requirements.txt") children). rewrite Hdir, Hbytes. run.
  unfold zip_dir at 1. run. rewrite zip_base_dir, zip_arcname.
  cbn [w_dirs with_dirs with_zips]. rewrite lookup_insert_eq. run.
  eexists. split_and!; [done| | | | |reflexivity]; simpl; try done.
  rewrite lookup_insert_eq. f_equal.
Qed.

Lemma main_is_directory {L : Type} (e : env) (ev : event L) (w : world)
    pkg ver lic children txt h :
  ev_package ev = Some pkg → ev_version ev = Some ver →
  ev_license_info ev = Some lic →
  installed e pkg = Some children →
  frozen e pkg ver = Ok (txt, h) →
  has_dir (lit "requirements.txt") children = true →
  fst (main e ev w) = Raise IsADirectoryError
  ∧ w_table (snd (main e ev w)) = w_table w
  ∧ w_bucket (snd (main e ev w)) = w_bucket w
  ∧ w_calls (snd (main e ev w)) = w_calls w ++ pip_calls pkg.
Proof.
  intros Hpkg Hver Hlic Hinst Hfr Hdir.
  destruct (main_until_write e ev w _ _ _ _ _ _ Hpkg Hver Hlic Hinst Hfr)
    as (w1 & Hd1 & Ht1 & Hb1 & Hc1 & ->).
  run. unfold write_text at 1 2 3 4. run. rewrite Hd1.
  fold (has_dir (lit "requirements.txt") children). rewrite Hdir. run. done.
Qed.

(** X14. An event without one of its three keys ends [main] in [KeyError]
    before anything is called or changed. *)
Theorem main_missing_key {L : Type} (e : env) (ev : event L) (w : world) :
  ev_package ev = None ∨ ev_version ev = None ∨ ev_license_info ev = None →
  main e ev w = (Raise KeyError, w).
Proof.
  unfold main. destruct ev as [[pkg|] [ver|] [lic|]]; simpl;
    intros [H|[H|H]]; done.
Qed.

Lemma main_missing_key_witness :
  main env_ok event_no_license empty_world = (Raise KeyError, empty_world).
Proof. apply main_missing_key. right. right. reflexivity. Defined.

(** X15. When the installed tree has a directory named [requirements.txt]
    at its top, opening the manifest file for writing fails: [main] ends
    in [IsADirectoryError] after the installer calls, with the table and
    the bucket as they were. *)
Theorem main_requirements_directory {L : Type} (e : env) (ev : event L) (w : world)
    (pkg : str) (ver : value) (lic : L) (children : list node) (txt h : str) :
  ev_package ev = Some pkg → ev_version ev = Some ver →
  ev_license_info ev = Some lic →
  installed e pkg = Some children →
  frozen e pkg ver = Ok (txt, h) →
  has_dir (lit "requirements.txt") children = true →
  fst (main e ev w) = Raise IsADirectoryError
  ∧ w_table (snd (main e ev w)) = w_table w
  ∧ w_bucket (snd (main e ev w)) = w_bucket w
  ∧ w_calls (snd (main e ev w)) = w_calls w ++ pip_calls pkg.
Proof. apply main_is_directory. Qed.

Lemma main_requirements_directory_witness :
  fst (main (env_of (Some tree_requirements_dir) false false false false)
         event_requests empty_world) = Raise IsADirectoryError.
Proof.
  apply (main_requirements_directory _ _ _ (lit "requests") (VStr (lit "2.31.0"))
           "MIT"%string tree_requirements_dir (lit "requests==2.31.0")
           (lit "c50a404532932d720b3939120b749da1c820eecda6f19e45762b2be87da7fc0b"));
    vm_compute; reflexivity.
Defined.

(** X16. A failing ledger query is fatal: [main] ends in [ClientError]
    without uploading or recording anything; "not found" is not
    assumed. *)
Theorem main_query_failure {L : Type} (e : env) (ev : event L) (w : world)
    (pkg : str) (ver : value) (lic : L) (children : list node) (txt h : str) :
  ev_package ev = Some pkg → ev_version ev = Some ver →
  ev_license_info ev = Some lic →
  installed e pkg = Some children →
  frozen e pkg ver = Ok (txt, h) →
  has_dir (lit "requirements.txt") children = false →
  query_error e = true →
  fst (main e ev w) = Raise ClientError
  ∧ w_table (snd (main e ev w)) = w_table w
  ∧ w_bucket (snd (main e ev w)) = w_bucket w
  ∧ w_calls (snd (main e ev w))
    = w_calls w ++ pip_calls pkg ++ [DynamoQuery pkg h].
Proof.
  intros Hpkg Hver Hlic Hinst Hfr Hdir Hq.
  destruct (main_until_query e ev w _ _ _ _ _ _ Hpkg Hver Hlic Hinst Hfr Hdir)
    as (bytes & w3 & Hbytes & Hz & Ht & Hb & Hc & ->).
  unfold publish_or_skip. run. rewrite check_requirement_hash_run, Hq. run.
  simpl. by rewrite Hc, <- app_assoc.
Qed.

Lemma main_query_failure_witness :
  fst (main (env_of (Some tree_requests) true false false false)
         event_requests empty_world) = Raise ClientError.
Proof.
  apply (main_query_failure _ _ _ (lit "requests") (VStr (lit "2.31.0"))
           "MIT"%string tree_requests
           (lit "requests==2.31.0" ++ LF :: lit "urllib3==2.0.0") hash_requests);
    try reflexivity; vm_compute; reflexivity.
Defined.

(** X17. When the fingerprint is in the ledger and nothing fails before the
    query is answered, [main] returns its record after the query, with the
    table and the bucket as they were. *)
Theorem main_skips {L : Type} (e : env) (ev : event L) (w : world)
    (pkg : str) (ver : value) (lic : L) (children : list node) (txt h : str) :
  ev_package ev = Some pkg → ev_version ev = Some ver →
  ev_license_info ev = Some lic →
  installed e pkg = Some children →
  frozen e pkg ver = Ok (txt, h) →
  has_dir (lit "requirements.txt") children = false →
  query_error e = false →
  in_ledger pkg h (w_table w) = true →
  fst (main e ev w) = Ok (result_of pkg ver h lic)
  ∧ w_table (snd (main e ev w)) = w_table w
  ∧ w_bucket (snd (main e ev w)) = w_bucket w
  ∧ w_calls (snd (main e ev w))
    = w_calls w ++ pip_calls pkg ++ [DynamoQuery pkg h].
Proof.
  intros Hpkg Hver Hlic Hinst Hfr Hdir Hq Hin.
  destruct (main_until_query e ev w _ _ _ _ _ _ Hpkg Hver Hlic Hinst Hfr Hdir)
    as (bytes & w3 & Hbytes & Hz & Ht & Hb & Hc & ->).
  unfold publish_or_skip. run. rewrite check_requirement_hash_run, Hq, Ht, Hin.
  cbn [negb]. run. simpl. by rewrite Hc, <- app_assoc.
Qed.

Lemma main_skips_witness :
  fst (main env_ok event_requests world_published)
  = Ok (result_of (lit "requests") (VStr (lit "2.31.0")) hash_requests "MIT"%string).
Proof.
  apply (main_skips env_ok _ _ (lit "requests") (VStr (lit "2.31.0"))
           "MIT"%string tree_requests
           (lit "requests==2.31.0" ++ LF :: lit "urllib3==2.0.0") hash_requests);
    try reflexivity; vm_compute; reflexivity.
Defined.

Lemma main_publish_path {L : Type} (e : env) (ev : event L) (w : world)
    pkg ver lic children txt h :
  ev_package ev = Some pkg → ev_version ev = Some ver →
  ev_license_info ev = Some lic →
  installed e pkg = Some children →
  frozen e pkg ver = Ok (txt, h) →
  has_dir (lit "requirements.txt") children = false →
  query_error e = false →
  in_ledger pkg h (w_table w) = false →
  upload_error e = false → list_error e = false →
  ∃ bytes,
    encode_utf8 txt = Some bytes
    ∧ fst (main e ev w)
      = (if put_error e then Raise (SystemExit 1)
         else Ok (result_of pkg ver h lic))
    ∧ w_table (snd (main e ev w))
      = (if put_error e then w_table w
         else put_item (new_item e pkg ver txt h) (w_table w))
    ∧ w_bucket (snd (main e ev w))
      = <[pkg ++ lit ".zip" :=
            {| a_base_dir := lit "python";
               a_content := with_file (lit "requirements.txt") txt bytes children |}]>
          (w_bucket w)
    ∧ w_calls (snd (main e ev w))
      = w_calls w ++ pip_calls pkg
        ++ [DynamoQuery pkg h; S3Upload (pkg ++ lit ".zip") true; S3List pkg;
            DynamoPutItem (new_item e pkg ver txt h) (negb (put_error e))].
Proof.
  intros Hpkg Hver Hlic Hinst Hfr Hdir Hq Hin Hup Hlist.
  destruct (main_until_query e ev w _ _ _ _ _ _ Hpkg Hver Hlic Hinst Hfr Hdir)
    as (bytes & w3 & Hbytes & Hz & Ht & Hb & Hc & ->).
  exists bytes. split; [done|].
  unfold publish_or_skip. run. rewrite check_requirement_hash_run, Hq, Ht, Hin.
  cbn [negb]. run.
  unfold upload_to_s3. run. cbn [w_zips with_call]. rewrite Hz, Hup, Hlist. run.
  cbn [w_bucket with_bucket with_call].
  match goal with
  | |- context [existsb ?f ?l] =>
      assert (Hex : existsb f l = true)
  end.
  { apply existsb_exists. exists (pkg ++ lit ".zip").
    split; [|apply starts_with_app].
    apply list_elem_of_In, list_elem_of_fmap.
    eexists (pkg ++ lit ".zip", _). split; [done|].
    apply elem_of_map_to_list, lookup_insert_eq. }
  rewrite Hex. run. rewrite put_requirements_hash_run.
  destruct (put_error e); run.
  - simpl. rewrite Hb, Hc, <- !app_assoc. done.
  - rewrite getsize_run by (cbn [w_zips with_table with_call with_bucket]; eauto).
    run. simpl. rewrite Ht, Hb, Hc, <- !app_assoc. done.
Qed.



(** X19. When the ledger write fails, [main] ends in [SystemExit(1)] after
    the upload: the object is in the bucket and the fingerprint is not in
    the ledger. *)
Theorem main_put_failure {L : Type} (e : env) (ev : event L) (w : world)
    (pkg : str) (ver : value) (lic : L) (children : list node) (txt h : str) :
  ev_package ev = Some pkg → ev_version ev = Some ver →
  ev_license_info ev = Some lic →
  installed e pkg = Some children →
  frozen e pkg ver = Ok (txt, h) →
  has_dir (lit "requirements.txt") children = false →
  query_error e = false →
  in_ledger pkg h (w_table w) = false →
  upload_error e = false → list_error e = false → put_error e = true →
  fst (main e ev w) = Raise (SystemExit 1)
  ∧ is_Some (w_bucket (snd (main e ev w)) !! (pkg ++ lit ".zip"))
  ∧ w_table (snd (main e ev w)) = w_table w
  ∧ in_ledger pkg h (w_table (snd (main e ev w))) = false.
Proof.
  intros Hpkg Hver Hlic Hinst Hfr Hdir Hq Hin Hup Hlist Hput.
  destruct (main_publish_path e ev w _ _ _ _ _ _ Hpkg Hver Hlic Hinst Hfr Hdir
              Hq Hin Hup Hlist) as (bytes & Hbytes & Hr & Ht & Hb & Hc).
  rewrite Hput in *. split_and!; [done| |done|by rewrite Ht].
  rewrite Hb, lookup_insert_eq. eauto.
Qed.

Lemma main_put_failure_witness :
  fst (main (env_of (Some tree_requests) false false false true)
         event_requests empty_world) = Raise (SystemExit 1).
Proof.
  apply (main_put_failure _ _ _ (lit "requests") (VStr (lit "2.31.0"))
           "MIT"%string tree_requests
           (lit "requests==2.31.0" ++ LF :: lit "urllib3==2.0.0") hash_requests);
    try reflexivity; vm_compute; reflexivity.
Defined.

(** X20. A run that returns leaves its fingerprint in the ledger, so that a
    second run of the same event with the same collaborators returns the
    same record and neither uploads nor writes: the table and the bucket
    stay as the first run left them. *)
Theorem main_rerun_skips {L : Type} (e : env) (ev : event L) (w w' : world)
    (out : output L) :
  main e ev w = (Ok out, w') →
  fst (main e ev w') = Ok out
  ∧ w_table (snd (main e ev w')) = w_table w'
  ∧ w_bucket (snd (main e ev w')) = w_bucket w'
  ∧ ∃ new, w_calls (snd (main e ev w')) = w_calls w' ++ new
           ∧ existsb is_upload new = false ∧ existsb is_put_item new = false.
Proof.
  intros Hmain. pose proof (main_run_of _ _ _ _ _ Hmain) as Hrun.
  inversion Hrun as [|pkg ver lic r w0 Hpkg Hver Hlic Hfrom]; subst.
  assert (Hok : ∃ children txt h,
            installed e pkg = Some children ∧ frozen e pkg ver = Ok (txt, h)
            ∧ query_error e = false ∧ out = result_of pkg ver h lic
            ∧ in_ledger pkg h (w_table w') = true).
  { inversion Hfrom as
      [| | | |ch txt h w0 Hinst Hfr Hq Hin [Ht Hb] Hc| | | |
       ch txt h w0 Hinst Hfr Hq Hin Hup Hlist Hput Ht Hb Hc]; subst;
      exists ch, txt, h; split_and!; try done.
    - by rewrite Ht.
    - rewrite Ht, in_ledger_put_item. unfold key_matches.
      cbn [new_item i_package i_requirements_hash]. by rewrite !str_eqb_refl. }
  destruct Hok as (children & txt & h & Hinst & Hfr & Hq & -> & Hin).
  assert (Hdir : has_dir (lit "requirements.txt") children = false).
  { destruct (has_dir (lit "requirements.txt") children) eqn:Hdir; [|done].
    destruct (main_is_directory e ev w _ _ _ _ _ _ Hpkg Hver Hlic Hinst Hfr Hdir)
      as [Hr _]. by rewrite Hmain in Hr. }
  destruct (main_until_query e ev w' _ _ _ _ _ _ Hpkg Hver Hlic Hinst Hfr Hdir)
    as (bytes & w3 & Hbytes & Hz & Ht & Hb & Hc & ->).
  unfold publish_or_skip. run. rewrite check_requirement_hash_run, Hq, Ht, Hin.
  cbn [negb]. run. simpl. split_and!; try done.
  exists (pip_calls pkg ++ [DynamoQuery pkg h]).
  by rewrite Hc, <- app_assoc.
Qed.

Lemma main_rerun_skips_witness :
  fst (main env_ok event_requests world_published)
  = Ok (result_of (lit "requests") (VStr (lit "2.31.0")) hash_requests "MIT"%string)
  ∧ w_table (snd (main env_ok event_requests world_published))
    = w_table world_published.
Proof.
  destruct (main_rerun_skips env_ok event_requests empty_world world_published
              (result_of (lit "requests") (VStr (lit "2.31.0")) hash_requests
                 "MIT"%string)) as (H1 & H2 & _).
  - vm_compute. reflexivity.
  - by split.
Defined.

Lemma pkg_info_last_line_wins_witness :
  pkg_info ([lit "Name: foo" ++ [LF]; lit "Version: 1.0" ++ [LF]]
            ++ [lit "Name:" ++ lit " bar" ++ [LF]])
  = Some (py_strip (lit " bar" ++ [LF]), lit "1.0").
Proof.
  destruct (pkg_info_last_line_wins
              [lit "Name: foo" ++ [LF]; lit "Version: 1.0" ++ [LF]]
              (lit " bar" ++ [LF]) []) as (_ & _ & H & _).
  apply (H (lit "foo")); [reflexivity|discriminate].
Defined.

Lemma dir_size_total_witness :
  fst (dir_size tmp_python (world_with_dir tree_requests))
  = fst (dir_size tmp_python (world_with_dir tree_requests_rev)).
Proof.
  destruct (dir_size_total tmp_python (world_with_dir tree_requests))
    as (_ & _ & H).
  apply (H tree_requests tree_requests_rev); [reflexivity|reflexivity|].
  unfold tree_requests, tree_requests_rev.
  etrans; [apply perm_swap|]. etrans; [apply perm_skip, perm_swap|].
  apply perm_swap.
Defined.

Lemma upload_to_s3_overwrites_witness :
  fst (upload_to_s3 env_ok (lit "/tmp/requests.zip") (lit "requests")
         (lit "requests.zip") world_with_zip) = Ok (lit "requests.zip").
Proof.
  destruct (upload_to_s3_overwrites env_ok (lit "/tmp/requests.zip")
              (lit "requests") (lit "requests.zip") world_with_zip) as [_ H].
  by apply (H {| a_base_dir := lit "python"; a_content := tree_requests |}).
Defined.

(** ** The record that [main] returns *)

(** C8. [main] returns, in the skipped and in the published branch alike,
    the dictionary with the keys [zip_file], [package], [version],
    [requirements_hash] and [license_info]: [zip_file] is the package name
    followed by [.zip], [requirements_hash] is the fingerprint that
    [freeze_requirements] computed for the installed tree, the other three
    are the fields of the event.  (1) It does return it: when the event
    has its three keys, the installer leaves a directory (without a
    sub-directory [requirements.txt]) that [freeze_requirements] accepts
    and the ledger query is answered, then the run returns this record if
    the fingerprint is in the ledger, and also if it is not and the
    upload, the listing and the ledger write succeed.  (2) Whatever a run
    returns is this record, and the run has then either left the ledger
    and the bucket alone or written the fingerprint and the object.
    (3) Two runs of one event that return, return equal records, whatever
    worlds (so whatever ledgers) they started from. *)
Theorem main_returns_output {L : Type} (e : env) (ev : event L) :
  (∀ w pkg ver lic children txt h,
      ev_package ev = Some pkg → ev_version ev = Some ver →
      ev_license_info ev = Some lic →
      installed e pkg = Some children →
      frozen e pkg ver = Ok (txt, h) →
      has_dir (lit "requirements.txt") children = false →
      query_error e = false →
      in_ledger pkg h (w_table w) = true
      ∨ in_ledger pkg h (w_table w) = false
        ∧ upload_error e = false ∧ list_error e = false ∧ put_error e = false →
      fst (main e ev w)
      = Ok {| zip_file := pkg ++ lit ".zip"; package := pkg; version := ver;
              requirements_hash := h; license_info := lic |})
  ∧ (∀ w out w',
      main e ev w = (Ok out, w') →
      ∃ pkg ver lic txt,
        ev_package ev = Some pkg ∧ ev_version ev = Some ver
        ∧ ev_license_info ev = Some lic
        ∧ frozen e pkg ver = Ok (txt, requirements_hash out)
        ∧ zip_file out = pkg ++ lit ".zip"
        ∧ package out = pkg
        ∧ version out = ver
        ∧ license_info out = lic
        ∧ (in_ledger pkg (requirements_hash out) (w_table w) = true
           ∧ w_table w' = w_table w ∧ w_bucket w' = w_bucket w
           ∨ in_ledger pkg (requirements_hash out) (w_table w) = false
           ∧ w_table w' = put_item (new_item e pkg ver txt (requirements_hash out))
                                   (w_table w)
           ∧ uploaded pkg w w'))
  ∧ (∀ w1 w2 out1 out2 w1' w2',
      main e ev w1 = (Ok out1, w1') →
      main e ev w2 = (Ok out2, w2') →
      out1 = out2).
Proof.
  split; [|apply main_output_of_run].
  intros w pkg ver lic children txt h Hpkg Hver Hlic Hinst Hfr Hdir Hq Hcase.
  change (fst (main e ev w) = Ok (result_of pkg ver h lic)).
  destruct Hcase as [Hin|(Hin & Hup & Hlist & Hput)].
  - destruct (main_until_query e ev w _ _ _ _ _ _ Hpkg Hver Hlic Hinst Hfr Hdir)
      as (bytes & w3 & Hbytes & Hz & Ht & Hb & Hc & ->).
    unfold publish_or_skip. run. rewrite check_requirement_hash_run, Hq, Ht, Hin.
    cbn [negb]. by run.
  - destruct (main_publish_path e ev w _ _ _ _ _ _ Hpkg Hver Hlic Hinst Hfr Hdir
                Hq Hin Hup Hlist) as (bytes & _ & Hr & _).
    by rewrite Hr, Hput.
Qed.

Lemma main_returns_output_witness :
  fst (main env_ok event_requests empty_world)
  = Ok {| zip_file := lit "requests" ++ lit ".zip"; package := lit "requests";
          version := VStr (lit "2.31.0"); requirements_hash := hash_requests;
          license_info := "MIT"%string |}
  ∧ fst (main env_ok event_requests world_published)
    = Ok {| zip_file := lit "requests" ++ lit ".zip"; package := lit "requests";
            version := VStr (lit "2.31.0"); requirements_hash := hash_requests;
            license_info := "MIT"%string |}.
Proof.
  destruct (main_returns_output env_ok event_requests) as [H _].
  split.
  - apply (H empty_world (lit "requests") (VStr (lit "2.31.0")) "MIT"%string
             tree_requests (lit "requests==2.31.0" ++ LF :: lit "urllib3==2.0.0")
             hash_requests); try reflexivity; try (vm_compute; reflexivity).
    right. split_and!; reflexivity.
  - apply (H world_published (lit "requests") (VStr (lit "2.31.0")) "MIT"%string
             tree_requests (lit "requests==2.31.0" ++ LF :: lit "urllib3==2.0.0")
             hash_requests); try reflexivity; try (vm_compute; reflexivity).
    left. vm_compute. reflexivity.
Defined.

(** ** Sensitivity of the fingerprint *)

(** More manifests than digests: among the numbers up to [B], a function
    with values below [B] takes some value twice. *)
Lemma bounded_search (P : N → Prop) `{!∀ n, Decision (P n)} (B : N) :
  (∃ i, i < B ∧ P i) ∨ (∀ i, i < B → ¬ P i).
Proof.
  induction B as [|B IH] using N.peano_ind.
  - right. intros i Hi. lia.
  - destruct IH as [(i & Hi & HP)|IH].
    + left. exists i. split; [lia|done].
    + destruct (decide (P B)) as [HP|HP].
      * left. exists B. split; [lia|done].
      * right. intros i Hi. destruct (decide (i = B)) as [->|Hne]; [done|].
        apply IH. lia.
Qed.

Lemma pigeonhole (B : N) (g : N → N) :
  (∀ n, n ≤ B → g n < B) → ∃ i j, i < j ∧ j ≤ B ∧ g i = g j.
Proof.
  revert g. induction B as [|B IH] using N.peano_ind; intros g Hg.
  - specialize (Hg 0). lia.
  - destruct (bounded_search (fun i => g i = g (N.succ B)) (N.succ B))
      as [(i & Hi & Heq)|Hnone].
    + exists i, (N.succ B). split_and!; [done|lia|done].
    + pose (t := g (N.succ B)).
      destruct (IH (fun n => if g n <? t then g n else g n - 1)) as (i & j & Hij & Hj & Heq).
      * intros n Hn.
        pose proof (Hg n ltac:(lia)) as Hgn.
        pose proof (Hg (N.succ B) ltac:(lia)) as Hgt.
        pose proof (Hnone n ltac:(lia)) as Hnt. fold t in Hgt, Hnt.
        destruct (N.ltb_spec (g n) t); lia.
      * exists i, j. split_and!; [done|lia|].
        pose proof (Hnone i ltac:(lia)) as Hit.
        pose proof (Hnone j ltac:(lia)) as Hjt. fold t in Hit, Hjt.
        destruct (N.ltb_spec (g i) t), (N.ltb_spec (g j) t); lia.
Qed.

(** A list of [n] bytes writes a number below [256 ^ n], and no two such
    lists write the same. *)
Lemma le_val_lt (bs : list N) :
  Forall (fun b => b < 256) bs → le_val bs < 256 ^ N.of_nat (length bs).
Proof.
  induction 1 as [|b bs Hb _ IH]; [done|].
  cbn [le_val length]. rewrite Nat2N.inj_succ, N.pow_succ_r'. lia.
Qed.

Lemma le_val_inj (l1 l2 : list N) :
  length l1 = length l2 →
  Forall (fun b => b < 256) l1 → Forall (fun b => b < 256) l2 →
  le_val l1 = le_val l2 → l1 = l2.
Proof.
  intros Hlen H1. revert l2 Hlen.
  induction H1 as [|b1 l1 Hb1 _ IH]; intros [|b2 l2] Hlen H2 Heq; try done.
  apply Forall_cons in H2 as [Hb2 H2]. cbn [le_val] in Heq.
  assert (b1 = b2 ∧ le_val l1 = le_val l2) as [-> Hv] by lia.
  f_equal. apply IH; [by injection Hlen|done|done].
Qed.

Lemma pos_bits_inj (p q : positive) : pos_bits p = pos_bits q → p = q.
Proof.
  revert q. induction p as [p IH|p IH|]; intros [q|q|]; simpl; try done;
    intros [= H]; f_equal; by apply IH.
Qed.

Lemma version_of_inj (m n : N) : version_of m = version_of n → m = n.
Proof.
  destruct m as [|p], n as [|q]; simpl; try done.
  intros [= H]. f_equal. by apply pos_bits_inj.
Qed.

Lemma version_of_digits (n : N) : Forall (fun c => c = 48 ∨ c = 49) (version_of n).
Proof.
  destruct n as [|p]; simpl; [by repeat constructor; auto|].
  constructor; [auto|]. induction p; simpl; constructor; auto.
Qed.

(** The run of [freeze_requirements] on [tree_version v]. *)
Lemma encode_utf8_ascii (s : str) :
  Forall (fun c => c < 128) s → encode_utf8 s = Some s.
Proof.
  induction 1 as [|c s Hc _ IH]; [done|].
  cbn [encode_utf8]. unfold utf8_char.
  destruct (N.ltb_spec c 128); [|lia]. by rewrite IH.
Qed.

Lemma sorted_singleton (e : str) : sorted [e] = [e].
Proof. apply Permutation_singleton_r, sorted_Permutation. Qed.

Lemma discovered_tree_version (v : str) :
  HYPHEN ∉ v →
  discovered (fs_of tmp_python (Some (tree_version v))) tmp_python
  = Ok [(lit "n", v)].
Proof.
  intros Hv. unfold discovered, collect, fs_of. cbn [os_walk].
  rewrite str_eqb_refl. unfold walk, tree_version.
  assert (Hd : ∀ d, dir_names [Dir d []] = [d]) by done.
  assert (Hf : ∀ d, file_names [Dir d []] = []) by done.
  rewrite Hd, Hf.
  cbn [map concat walk_node app for_each scan_triple].
  change (dir_names []) with (@nil str). change (file_names []) with (@nil str).
  unfold scan_dir. cbn [for_each].
  change (lit "n-" ++ v ++ lit ".dist-info")
    with (lit "n" ++ HYPHEN :: v ++ [] ++ lit ".dist-info").
  rewrite dist_info_name_version; [done| |done|by left].
  apply (bool_decide_unpack _). vm_compute. exact I.
Qed.

Lemma digits_lt (v : str) (P : N → bool) :
  P 48 = true → P 49 = true →
  Forall (fun c => c = 48 ∨ c = 49) v → forallb P v = true.
Proof.
  intros H0 H1. induction 1 as [|c v [-> | ->] _ IH]; simpl; [done| |];
    by rewrite ?H0, ?H1.
Qed.

Lemma freeze_tree_version (v : str) :
  Forall (fun c => c = 48 ∨ c = 49) v → v ≠ [] →
  freeze_requirements (fs_of tmp_python (Some (tree_version v)))
    (lit "n") tmp_python (VStr v)
  = Ok (lit "n==" ++ v, SHA256.hexdigest (lit "n==" ++ v)).
Proof.
  intros Hv Hne.
  assert (Hh : HYPHEN ∉ v).
  { intros Hin. rewrite Forall_forall in Hv. by destruct (Hv _ Hin). }
  rewrite (freeze_requirements_discovered _ _ _ _ _ (discovered_tree_version v Hh)).
  unfold manifest_of, joined, sha256_hex. cbn [map]. rewrite sorted_singleton.
  cbn [py_join]. change (entry_of (lit "n", v)) with (lit "n==" ++ v).
  rewrite encode_utf8_ascii.
  2: { apply Forall_app. split; [by repeat constructor|].
       eapply Forall_impl; [exact Hv|]. intros c [-> | ->]; lia. }
  do 2 f_equal. unfold py_strip.
  change (py_lstrip (lit "n==" ++ v)) with (lit "n==" ++ v).
  destruct (last v) as [c|] eqn:Hl; [|by apply last_None in Hl].
  apply (py_rstrip_id _ c).
  - apply last_Some in Hl as [v' ->]. by rewrite app_assoc, last_snoc.
  - apply last_Some in Hl as [v' ->]. apply Forall_app in Hv as [_ Hc].
    apply Forall_inv in Hc. by destruct Hc as [-> | ->].
Qed.

(** SHA-256 has a collision among the manifests of one package [n] whose
    version is a string of the digits [0] and [1]: there are more such
    versions than digests. *)
Lemma fingerprint_collision :
  ∃ v1 v2 h,
    v1 ≠ v2
    ∧ no_space v1 = true ∧ no_space v2 = true
    ∧ discovered (fs_of tmp_python (Some (tree_version v1))) tmp_python
      = Ok [(lit "n", v1)]
    ∧ discovered (fs_of tmp_python (Some (tree_version v2))) tmp_python
      = Ok [(lit "n", v2)]
    ∧ freeze_requirements (fs_of tmp_python (Some (tree_version v1)))
        (lit "n") tmp_python (VStr v1)
      = Ok (lit "n==" ++ v1, h)
    ∧ freeze_requirements (fs_of tmp_python (Some (tree_version v2)))
        (lit "n") tmp_python (VStr v2)
      = Ok (lit "n==" ++ v2, h).
Proof.
  destruct (pigeonhole (256 ^ 32)
              (fun n => le_val (SHA256.digest (lit "n==" ++ version_of n))))
    as (i & j & Hij & _ & Heq).
  { intros n _.
    pose proof (le_val_lt _ (digest_bytes (lit "n==" ++ version_of n))) as Hlt.
    by rewrite length_digest in Hlt. }
  apply le_val_inj in Heq;
    [|by rewrite !length_digest|apply digest_bytes|apply digest_bytes].
  assert (Hne : ∀ n, version_of n ≠ []) by (by intros [|p]).
  assert (Hh : ∀ n, HYPHEN ∉ version_of n).
  { intros n Hin. pose proof (version_of_digits n) as Hd.
    rewrite Forall_forall in Hd. by destruct (Hd _ Hin). }
  exists (version_of i), (version_of j),
    (SHA256.hexdigest (lit "n==" ++ version_of i)).
  split_and!.
  - intros Hv%version_of_inj. lia.
  - apply digits_lt; [done|done|apply version_of_digits].
  - apply digits_lt; [done|done|apply version_of_digits].
  - by apply discovered_tree_version.
  - by apply discovered_tree_version.
  - apply freeze_tree_version; [apply version_of_digits|done].
  - rewrite freeze_tree_version; [|apply version_of_digits|done].
    unfold SHA256.hexdigest. by rewrite Heq.
Qed.

(** [strip()] leaves the joined text of such pairs as it is. *)
Lemma entry_strip_safe (p : str * str) :
  pair_strip_safe p = true →
  (∃ c rest, entry_of p = c :: rest ∧ is_space c = false)
  ∧ (∃ c, last (entry_of p) = Some c ∧ is_space c = false).
Proof.
  unfold pair_strip_safe. rewrite !andb_true_iff. intros [[_ Hn] Hv].
  destruct p as [n v]. unfold entry_of, entry. cbn [fst snd] in *. split.
  - destruct n as [|c n]; [by exists 61, (61 :: v)|].
    exists c, (n ++ lit "==" ++ v). split; [done|].
    simpl in Hn. by destruct (is_space c).
  - destruct (last v) as [c|] eqn:Hl.
    + apply last_Some in Hl as [v' ->]. exists c.
      rewrite !app_assoc, last_snoc. split; [done|].
      rewrite reverse_snoc in Hv. simpl in Hv. by destruct (is_space c).
    + apply last_None in Hl as ->. exists 61.
      replace (n ++ lit "==" ++ []) with ((n ++ [61]) ++ [61])
        by (by rewrite <- app_assoc).
      by rewrite last_snoc.
Qed.

Lemma py_join_strip (sep : N) (es : list str) :
  es ≠ [] →
  Forall (fun e => (∃ c rest, e = c :: rest ∧ is_space c = false)
                   ∧ (∃ c, last e = Some c ∧ is_space c = false)) es →
  py_strip (py_join sep es) = py_join sep es.
Proof.
  intros Hne Hall.
  assert (Hends : (∃ c rest, py_join sep es = c :: rest ∧ is_space c = false)
                  ∧ (∃ c, last (py_join sep es) = Some c ∧ is_space c = false)).
  { induction es as [|e [|e' es] IH]; [done| |].
    - apply Forall_inv in Hall. by simpl.
    - apply Forall_cons in Hall as [[(d & rest & -> & Hd) _] Hall].
      change (py_join sep ((d :: rest) :: e' :: es))
        with ((d :: rest) ++ sep :: py_join sep (e' :: es)).
      destruct (IH ltac:(done) Hall) as [_ (c & Hc & Hsp)]. split.
      + by exists d, (rest ++ sep :: py_join sep (e' :: es)).
      + exists c. split; [|done]. by rewrite last_app_cons, last_cons, Hc. }
  destruct Hends as [(c & rest & Hc & Hsp) (d & Hd & Hdsp)].
  unfold py_strip. rewrite Hc, py_lstrip_id by done.
  rewrite <- Hc. by apply (py_rstrip_id _ d).
Qed.

(** The hexadecimal writing of the digest loses nothing. *)
Lemma hex_digit_inj (a b : N) :
  a < 16 → b < 16 → SHA256.hex_digit a = SHA256.hex_digit b → a = b.
Proof.
  unfold SHA256.hex_digit. intros Ha Hb.
  destruct (N.ltb_spec a 10), (N.ltb_spec b 10); lia.
Qed.

Lemma hex_inj (l1 l2 : list N) :
  Forall (fun b => b < 256) l1 → Forall (fun b => b < 256) l2 →
  SHA256.hex l1 = SHA256.hex l2 → l1 = l2.
Proof.
  unfold SHA256.hex. intros H1. revert l2.
  induction H1 as [|b1 l1 Hb1 _ IH]; intros [|b2 l2] H2; try done.
  apply Forall_cons in H2 as [Hb2 H2]. cbn [map concat app].
  intros [= Hhi Hlo Hrest]. f_equal; [|by apply IH].
  assert (Hdiv : ∀ b, b < 256 → N.shiftr b 4 < 16).
  { intros b Hb. rewrite N.shiftr_div_pow2. apply N.Div0.div_lt_upper_bound.
    by change (2 ^ 4 * 16) with 256. }
  assert (Hmod : ∀ b, N.land b 15 < 16).
  { intros b. change 15 with (N.ones 4). rewrite N.land_ones. by apply N.mod_lt. }
  apply hex_digit_inj in Hhi; [|by apply Hdiv..].
  apply hex_digit_inj in Hlo; [|by apply Hmod..].
  rewrite !N.shiftr_div_pow2 in Hhi.
  change 15 with (N.ones 4) in Hlo. rewrite !N.land_ones in Hlo.
  rewrite (N.div_mod b1 (2 ^ 4)), (N.div_mod b2 (2 ^ 4)) by done.
  by rewrite Hhi, Hlo.
Qed.

Lemma manifest_of_strip_safe (pairs : list (str * str)) :
  pairs ≠ [] → forallb pair_strip_safe pairs = true →
  manifest_of (map entry_of pairs)
  = match encode_utf8 (joined (map entry_of pairs)) with
    | Some bytes => Ok (joined (map entry_of pairs), SHA256.hexdigest bytes)
    | None => Raise UnicodeEncodeError
    end.
Proof.
  intros Hne Hsafe. unfold manifest_of, sha256_hex.
  destruct (encode_utf8 _) as [bytes|]; [|done].
  do 2 f_equal. unfold joined. apply py_join_strip.
  - intros Hnil. apply Hne, (map_eq_nil entry_of), Permutation_nil_r.
    by rewrite <- Hnil, sorted_Permutation.
  - rewrite sorted_Permutation. apply Forall_map, Forall_forall. intros p Hp.
    apply entry_strip_safe. rewrite forallb_forall in Hsafe.
    by apply Hsafe, list_elem_of_In.
Qed.

(** C9, as stated, fails, in three ways.  (1) [tree_lf_1] and [tree_lf_2]
    differ only in the version of package [n], whose versions hold a line
    feed, and have the same manifest text and the same fingerprint.
    (2) [tree_foo] and [tree_space] differ only in the version of [foo],
    [1.0] and [1.0] followed by a space, without any line feed, and have
    the same manifest text.  (3) Among the trees of the one package [n]
    with a version of the digits [0] and [1], two with different versions
    have the same fingerprint: the fingerprints are fewer than these
    trees. *)
Lemma fingerprint_sensitivity_counterexample :
  (let other := (lit "n==1" ++ LF :: lit "n==2" ++ LF :: lit "n", lit "1") in
   discovered (fs_of tmp_python (Some tree_lf_1)) tmp_python
     = Ok [(lit "n", lit "1" ++ LF :: lit "n==2"); other]
   ∧ discovered (fs_of tmp_python (Some tree_lf_2)) tmp_python
     = Ok [(lit "n", lit "2" ++ LF :: lit "n==1"); other]
   ∧ lit "1" ++ LF :: lit "n==2" ≠ lit "2" ++ LF :: lit "n==1"
   ∧ freeze_requirements (fs_of tmp_python (Some tree_lf_1))
       (lit "n") tmp_python (VStr (lit "1"))
     = freeze_requirements (fs_of tmp_python (Some tree_lf_2))
         (lit "n") tmp_python (VStr (lit "1"))
   ∧ freeze_requirements (fs_of tmp_python (Some tree_lf_2))
       (lit "n") tmp_python (VStr (lit "1"))
     = Ok (lit "n==1" ++ LF :: lit "n==2" ++ LF :: lit "n==1" ++ LF
             :: lit "n==2" ++ LF :: lit "n==1",
           lit "7a12b27b2835ae2514ab047c8ffa394c63a921087971543a8935d947c90e8716"))
  ∧ (discovered (fs_of tmp_python (Some tree_foo)) tmp_python
       = Ok [(lit "foo", lit "1.0")]
     ∧ discovered (fs_of tmp_python (Some tree_space)) tmp_python
       = Ok [(lit "foo", lit "1.0 ")]
     ∧ lit "1.0" ≠ lit "1.0 "
     ∧ forallb pair_no_lf [(lit "foo", lit "1.0"); (lit "foo", lit "1.0 ")] = true
     ∧ freeze_requirements (fs_of tmp_python (Some tree_foo))
         (lit "foo") tmp_python (VStr (lit "1.0"))
       = Ok (lit "foo==1.0",
             lit "8475d84fa3559abc70bd944ca6dbc62daea9a54c9ff1b71fb82a57e062014536")
     ∧ freeze_requirements (fs_of tmp_python (Some tree_space))
         (lit "foo") tmp_python (VStr (lit "1.0"))
       = Ok (lit "foo==1.0",
             lit "d521cdcdbe8e0909802329ccb2c32e720cd5cae177a5d220b5914d6a63e011e7"))
  ∧ (∃ v1 v2 h,
       v1 ≠ v2
       ∧ no_space v1 = true ∧ no_space v2 = true
       ∧ discovered (fs_of tmp_python (Some (tree_version v1))) tmp_python
         = Ok [(lit "n", v1)]
       ∧ discovered (fs_of tmp_python (Some (tree_version v2))) tmp_python
         = Ok [(lit "n", v2)]
       ∧ freeze_requirements (fs_of tmp_python (Some (tree_version v1)))
           (lit "n") tmp_python (VStr v1)
         = Ok (lit "n==" ++ v1, h)
       ∧ freeze_requirements (fs_of tmp_python (Some (tree_version v2)))
           (lit "n") tmp_python (VStr v2)
         = Ok (lit "n==" ++ v2, h)).
Proof.
  split; [|split; [|exact fingerprint_collision]].
  - cbv zeta. split_and!; try (vm_compute; reflexivity). discriminate.
  - split_and!; try (vm_compute; reflexivity). discriminate.
Qed.

(** C9, amended.  Take two trees that differ only in the version of one
    dependency, where no discovered name or version holds a line feed, no
    name starts and no version ends with white space.  Then
    [freeze_requirements] returns for both when every entry can be encoded
    in UTF-8, and what it returns for them are two different manifest
    texts and, as fingerprints, the SHA-256 hex digests of the UTF-8
    encodings of these texts, two different byte strings; the fingerprints
    are different unless SHA-256 gives these two byte strings the same
    digest. *)
Theorem fingerprint_sensitivity
    (fs1 fs2 : filesystem) (package path : str) (version : value)
    (name v1 v2 : str) (others pairs1 pairs2 : list (str * str)) :
  discovered fs1 path = Ok pairs1 →
  discovered fs2 path = Ok pairs2 →
  pairs1 ≡ₚ (name, v1) :: others →
  pairs2 ≡ₚ (name, v2) :: others →
  v1 ≠ v2 →
  forallb pair_strip_safe (pairs1 ++ pairs2) = true →
  (forallb (fun p => forallb encodable (entry_of p)) (pairs1 ++ pairs2) = true →
   ∃ txt1 h1 txt2 h2,
     freeze_requirements fs1 package path version = Ok (txt1, h1)
     ∧ freeze_requirements fs2 package path version = Ok (txt2, h2))
  ∧ (∀ txt1 h1 txt2 h2,
       freeze_requirements fs1 package path version = Ok (txt1, h1) →
       freeze_requirements fs2 package path version = Ok (txt2, h2) →
       txt1 ≠ txt2
       ∧ ∃ bytes1 bytes2,
           encode_utf8 txt1 = Some bytes1
           ∧ encode_utf8 txt2 = Some bytes2
           ∧ bytes1 ≠ bytes2
           ∧ h1 = SHA256.hexdigest bytes1
           ∧ h2 = SHA256.hexdigest bytes2
           ∧ (SHA256.digest bytes1 ≠ SHA256.digest bytes2 → h1 ≠ h2)).
Proof.
  intros H1 H2 Hp1 Hp2 Hv Hsafe.
  assert (Hlf : forallb pair_no_lf (pairs1 ++ pairs2) = true).
  { rewrite forallb_forall in Hsafe. apply forallb_forall. intros p Hp.
    apply Hsafe in Hp. unfold pair_strip_safe in Hp.
    by apply andb_true_iff in Hp as [[? _]%andb_true_iff _]. }
  pose proof (joined_differ _ _ _ _ _ _ Hp1 Hp2 Hv Hlf) as Hdiff.
  assert (Hne : ∀ ps v, ps ≡ₚ (name, v) :: others → ps ≠ []).
  { intros ps v Hps ->. by apply Permutation_nil_cons in Hps. }
  rewrite forallb_app in Hsafe. apply andb_true_iff in Hsafe as [Hs1 Hs2].
  rewrite (freeze_requirements_discovered _ _ _ _ _ H1).
  rewrite (freeze_requirements_discovered _ _ _ _ _ H2).
  rewrite (manifest_of_strip_safe _ (Hne _ _ Hp1) Hs1).
  rewrite (manifest_of_strip_safe _ (Hne _ _ Hp2) Hs2).
  assert (Henc : ∀ pairs,
            forallb (fun p => forallb encodable (entry_of p)) pairs = true →
            is_Some (encode_utf8 (joined (map entry_of pairs)))).
  { intros pairs Hp. rewrite encode_utf8_encodable. unfold joined.
    rewrite forallb_py_join by done.
    rewrite (forallb_Permutation _ _ _ (sorted_Permutation _)).
    by rewrite forallb_fmap. }
  split.
  - rewrite forallb_app. intros [[b1 ->]%Henc [b2 ->]%Henc]%andb_true_iff.
    by eexists _, _, _, _.
  - intros txt1 h1 txt2 h2.
    destruct (encode_utf8 (joined (map entry_of pairs1))) as [b1|] eqn:E1; [|done].
    destruct (encode_utf8 (joined (map entry_of pairs2))) as [b2|] eqn:E2; [|done].
    intros [= <- <-] [= <- <-]. split; [done|].
    exists b1, b2. split_and!; try done.
    + intros <-. by apply Hdiff, (encode_utf8_inj _ _ b1).
    + intros Hd Hh. apply Hd. unfold SHA256.hexdigest in Hh.
      by apply hex_inj in Hh; [|apply digest_bytes..].
Qed.

Lemma fingerprint_sensitivity_witness :
  hash_requests
  ≠ lit "cd3bcc3b3fbab393e7669e0aaadd9a9a7cd32f915e9ef22f75865ee5c462a96e".
Proof.
  destruct (fingerprint_sensitivity
              (fs_of tmp_python (Some tree_requests))
              (fs_of tmp_python (Some tree_requests_new))
              (lit "requests") tmp_python (VStr (lit "2.31.0"))
              (lit "urllib3") (lit "2.0.0") (lit "2.0.1")
              [(lit "requests", lit "2.31.0")]
              [(lit "requests", lit "2.31.0"); (lit "urllib3", lit "2.0.0")]
              [(lit "requests", lit "2.31.0"); (lit "urllib3", lit "2.0.1")])
    as [_ H]; try (vm_compute; reflexivity).
  - apply perm_swap.
  - apply perm_swap.
  - discriminate.
  - destruct (H (lit "requests==2.31.0" ++ LF :: lit "urllib3==2.0.0") hash_requests
                (lit "requests==2.31.0" ++ LF :: lit "urllib3==2.0.1")
                (lit "cd3bcc3b3fbab393e7669e0aaadd9a9a7cd32f915e9ef22f75865ee5c462a96e"))
      as (_ & b1 & b2 & E1 & E2 & _ & _ & _ & Hh);
      try (vm_compute; reflexivity).
    apply Hh. vm_compute in E1, E2. injection E1 as <-. injection E2 as <-.
    vm_compute. discriminate.
Defined.
